(** * GNS baseline: MLP builder, rollout driver and training entry point

    A shallow embedding of [src/gns.py] ([build_mlp]) and of
    [src/gns/train_baseline.py] ([rollout], the checkpoint and batch code of
    [train], and [_get_simulator]), with the properties the specification
    states about them.

    Python exceptions are values of [exn] carried by the [result] monad;
    tensors are nested lists over an abstract scalar type. *)

From stdpp Require Import base option list strings pretty numbers.
From Stdlib Require Import ZArith Lia Ascii.

Open Scope Z_scope.

(** ** Exceptions *)

Inductive exn : Type :=
  | IndexError
  | RuntimeError
  | AttributeError.

Inductive result (A : Type) : Type :=
  | Ok (a : A)
  | Raise (e : exn).
Arguments Ok {A} a.
Arguments Raise {A} e.

#[global] Instance result_ret : MRet result := fun _ a => Ok a.
#[global] Instance result_bind : MBind result := fun _ _ f m =>
  match m with
  | Ok a => f a
  | Raise e => Raise e
  end.

Definition raises {A} (m : result A) : Prop := exists e, m = Raise e.

(** [l[i]] for [0 <= i]: IndexError out of range. *)
Definition getitem {A} (l : list A) (i : nat) : result A :=
  match l !! i with
  | Some a => Ok a
  | None => Raise IndexError
  end.

(** [l[-1] = x]: "list assignment index out of range" on the empty list. *)
Definition setitem_last {A} (l : list A) (x : A) : result (list A) :=
  match l with
  | [] => Raise IndexError
  | _ => Ok (<[Nat.pred (length l) := x]> l)
  end.

(** [for x in xs: s = body x s], stopping at the first exception. *)
Fixpoint for_in {A S} (xs : list A) (body : A -> S -> result S) (s : S)
  : result S :=
  match xs with
  | [] => Ok s
  | x :: rest => s' ← body x s; for_in rest body s'
  end.

(** [if v:] on an [int] that may be [None]. *)
Definition truthy (v : option Z) : bool :=
  match v with
  | None => false
  | Some z => negb (z =? 0)
  end.

(** [torch.empty(shape)], by which a module gets its parameters.  A
    negative size is refused, and so is a tensor that the allocator of the
    machine cannot provide; both are a RuntimeError.  [allocates shape]
    says whether the allocator provides a tensor of this shape. *)
Definition torch_empty (allocates : list Z -> bool) (shape : list Z)
  : result unit :=
  if forallb (fun n => 0 <=? n) shape && allocates shape
  then Ok tt else Raise RuntimeError.

(** ** src/gns.py *)

Module Gns.

(** The classes passed as [activation] and [output_activation]; [Named]
    stands for any other [nn.Module] class that is built with no argument. *)
Inductive module_class : Type :=
  | Identity
  | ReLU
  | Named (cls : string).

Inductive module : Type :=
  | Linear (in_features out_features : Z)
  | Activation (cls : module_class).

Section Layers.
Variable allocates : list Z -> bool.

(** [nn.Linear(i, o)] allocates an [o] by [i] weight and a bias of [o]
    entries: a negative size is a RuntimeError, and so is a weight or a
    bias that cannot be allocated; a zero size is accepted. *)
Definition nn_Linear (i o : Z) : result module :=
  _ ← torch_empty allocates [o; i];
  _ ← torch_empty allocates [o];
  Ok (Linear i o).

(** [nn.Sequential]: the registered modules in insertion order.  The names
    registered by [build_mlp] are pairwise distinct, so [add_module] always
    adds at the end. *)
Abbreviation Sequential := (list (string * module)) (only parsing).

Definition add_module (name : string) (m : module) (mlp : Sequential)
  : Sequential :=
  mlp ++ [(name, m)].

Definition layer_sizes_of (input_size : Z) (hidden_layer_sizes : list Z)
    (output_size : option Z) : list Z :=
  let layer_sizes := [input_size] ++ hidden_layer_sizes in
  if truthy output_size
  then layer_sizes ++ [default 0 output_size]
  else layer_sizes.

(** Body of [for i in range(nlayers)]. *)
Definition add_layer (layer_sizes : list Z) (act : list module_class)
    (i : nat) (mlp : Sequential) : result Sequential :=
  n_in ← getitem layer_sizes i;
  n_out ← getitem layer_sizes (i + 1)%nat;
  lin ← nn_Linear n_in n_out;
  let mlp := add_module ("NN-" +:+ pretty i) lin mlp in
  cls ← getitem act i;
  Ok (add_module ("Act-" +:+ pretty i) (Activation cls) mlp).

(** [build_mlp]; an omitted [output_activation] or [activation] is [None]
    and takes the default of the signature. *)
Definition build_mlp (input_size : Z) (hidden_layer_sizes : list Z)
    (output_size : option Z)
    (output_activation activation : option module_class)
  : result Sequential :=
  let output_activation := default Identity output_activation in
  let activation := default ReLU activation in
  let layer_sizes := layer_sizes_of input_size hidden_layer_sizes output_size in
  let nlayers := (length layer_sizes - 1)%nat in
  let act := replicate nlayers activation in
  act ← setitem_last act output_activation;
  for_in (seq 0 nlayers) (add_layer layer_sizes act) [].

End Layers.

End Gns.

(** ** Tensors

    Tensor elements are values of a type [F] with the float operations the
    code applies to them; no law of arithmetic is built in, a theorem that
    needs one states it.  A tensor of rank k is a list nested k deep, its
    sizes are the list lengths (the inner sizes of a tensor whose outer size
    is zero are therefore not represented). *)

Class Float (F : Type) : Type := {
  f_zero : F;
  f_add : F -> F -> F;
  f_sub : F -> F -> F;
  f_mul : F -> F -> F;
  f_div : F -> F -> F;
  f_sqrt : F -> F;
  f_of_Z : Z -> F;
}.

(** Integer scalars, to run the definitions on concrete tensors. *)
#[global] Instance Z_scalars : Float Z := {|
  f_zero := 0;
  f_add := Z.add;
  f_sub := Z.sub;
  f_mul := Z.mul;
  f_div := Z.div;
  f_sqrt := Z.sqrt;
  f_of_Z := fun z => z;
|}.

Abbreviation T1 F := (list F) (only parsing).
Abbreviation T2 F := (list (list F)) (only parsing).
Abbreviation T3 F := (list (list (list F))) (only parsing).

Module Torch.
Section Tensors.
Context {F : Type} `{Float F}.

(** [x ** 2] *)
Definition f_sq (x : F) : F := f_mul x x.

(** A bool operand of a float operation counts as 1.0 or 0.0. *)
Definition f_of_bool (b : bool) : F := f_of_Z (Z.b2z b).

(** Binary elementwise operation along one dimension, with broadcasting:
    equal sizes pair up, a size 1 is repeated, anything else is an error. *)
Definition broadcast {A B C} (f : A -> B -> result C)
    (a : list A) (b : list B) : result (list C) :=
  if decide (length a = length b)
  then mapM (fun ab => f ab.1 ab.2) (zip a b)
  else match a, b with
       | [x], _ => mapM (f x) b
       | _, [y] => mapM (fun x => f x y) a
       | _, _ => Raise RuntimeError
       end.

(** [a - b] on rank 2 tensors. *)
Definition sub2 (a b : T2 F) : result (T2 F) :=
  broadcast (broadcast (fun x y => Ok (f_sub x y))) a b.

(** [t.sum()] and [t.sum(dim=-1)] *)
Definition sum1 (t : T1 F) : F := foldr f_add f_zero t.
Definition sum_last (t : T2 F) : T1 F := map sum1 t.

(** [torch.where(mask, t, torch.zeros_like(t))] on rank 1 tensors. *)
Definition where_or_zero (mask : list bool) (t : T1 F) : result (T1 F) :=
  broadcast (fun (b : bool) x => Ok (if b then x else f_zero)) mask t.

(** [t *= mask.view(-1, 1, 1)]: the product is written back into [t], so
    the broadcast shape has to be the shape of [t]. *)
Definition imul_mask (t : T3 F) (mask : list bool) : result (T3 F) :=
  let scale (b : bool) := map (map (fun x => f_mul x (f_of_bool b))) in
  if decide (length mask = length t)
  then Ok (zip_with (fun b w => scale b w) mask t)
  else match mask with
       | [b] => Ok (map (scale b) t)
       | _ => Raise RuntimeError
       end.

(** All position vectors of a window have one size. *)
Definition same_dim (w : list (list F)) : bool :=
  match w with
  | [] => true
  | p :: rest => forallb (fun q => bool_decide (length q = length p)) rest
  end.

(** [torch.cat([a, b], dim=1)]: sizes must agree outside dimension 1. *)
Definition cat_dim1 (a b : T3 F) : result (T3 F) :=
  if decide (length a = length b)
  then let c := zip_with app a b in
       if forallb same_dim c then Ok c else Raise RuntimeError
  else Raise RuntimeError.

Definition shape2 (t : T2 F) : list nat := map length t.

(** [torch.stack(ts)]: a non-empty list of tensors of one shape. *)
Definition stack (ts : list (T2 F)) : result (list (T2 F)) :=
  match ts with
  | [] => Raise RuntimeError
  | t :: rest =>
      if forallb (fun u => bool_decide (shape2 u = shape2 t)) rest
      then Ok ts
      else Raise RuntimeError
  end.

(** [t.permute(1, 0, 2)] *)
Fixpoint permute_102 (t : T3 F) : T3 F :=
  match t with
  | [] => []
  | w :: rest =>
      match rest with
      | [] => map (fun p => [p]) w
      | _ => zip_with cons w (permute_102 rest)
      end
  end.

End Tensors.
End Torch.

(** ** src/gns/train_baseline.py *)

Module TrainBaseline.

Definition INPUT_SEQUENCE_LENGTH : nat := 6.
Definition NUM_PARTICLE_TYPES : Z := 1.
Definition KINEMATIC_PARTICLE_ID : Z := -1.

(** The [edge_index] tensor handed through to the simulator. *)
Abbreviation edge_index := (list (list Z)) (only parsing).

Section Simulation.
Context {F : Type} `{Float F}.
Import Torch.

(** The two methods of [learned_simulator.LearnedCylinderSimulator] that
    this file calls; the class is not part of these sources. *)
Record Simulator : Type := {
  predict_positions :
    T3 F -> list Z -> edge_index -> T2 F;
  (* next_positions, position_sequence_noise, position_sequence,
     particle_types, edge_index *)
  predict_accelerations :
    T2 F -> T3 F -> T3 F -> list Z -> edge_index -> T2 F * T2 F;
}.

(** *** rollout *)

Record rollout_output : Type := {
  initial_positions : T3 F;
  predicted_rollout : list (T2 F);
  ground_truth_rollout : T2 F;
  particle_types : list Z;
}.

(** Body of [for step in range(nsteps)], on the pair
    [(current_positions, predictions)]. *)
Definition rollout_step (simulator : Simulator) (particle_types : list Z)
    (edge_index : edge_index) (step : nat)
    (st : T3 F * list (T2 F)) : result (T3 F * list (T2 F)) :=
  let '(current_positions, predictions) := st in
  let next_position :=
    predict_positions simulator current_positions particle_types edge_index in
  (* the mask is computed; the [torch.where] using it is commented out *)
  let kinematic_mask :=
    map (fun t => t =? KINEMATIC_PARTICLE_ID) particle_types in
  let predictions := predictions ++ [next_position] in
  current_positions ← cat_dim1 (map (drop 1) current_positions)
                               (map (fun p => [p]) next_position);
  Ok (current_positions, predictions).

(** The loop of [rollout] alone, from the initial window. *)
Definition rollout_loop (simulator : Simulator) (position : T3 F)
    (particle_types : list Z) (edge_index : edge_index) (nsteps : nat)
  : result (T3 F * list (T2 F)) :=
  let initial_positions := map (take INPUT_SEQUENCE_LENGTH) position in
  for_in (seq 0 nsteps) (rollout_step simulator particle_types edge_index)
         (initial_positions, []).

(** [rollout]; [device] only moves tensors and the [print] is dropped. *)
Definition rollout (simulator : Simulator) (position : T3 F) (label : T2 F)
    (particle_types : list Z) (edge_index : edge_index) (nsteps : Z)
  : result (rollout_output * T2 F) :=
  let initial_positions := map (take INPUT_SEQUENCE_LENGTH) position in
  let ground_truth_positions := label in
  '(current_positions, predictions) ←
    for_in (seq 0 (Z.to_nat nsteps))
           (rollout_step simulator particle_types edge_index)
           (initial_positions, []);
  predictions ← stack predictions;
  last_prediction ← getitem predictions (Nat.pred (length predictions));
  diff ← sub2 last_prediction ground_truth_positions;
  let loss := map (map f_sq) diff in
  Ok ({| initial_positions := permute_102 initial_positions;
         predicted_rollout := predictions;
         ground_truth_rollout := ground_truth_positions;
         particle_types := particle_types |},
      loss).

(** *** train: one batch (lines 319 to 346)

    [sampled_noise] is the tensor drawn by
    [noise_utils.get_random_walk_noise_for_position_sequence]. *)

Definition non_kinematic_mask_of (particle_type : list Z) : list bool :=
  map (fun t => negb (t =? KINEMATIC_PARTICLE_ID)) particle_type.

(** [sampled_noise *= non_kinematic_mask.view(-1, 1, 1)] *)
Definition mask_noise (sampled_noise : T3 F) (particle_type : list Z)
  : result (T3 F) :=
  imul_mask sampled_noise (non_kinematic_mask_of particle_type).

(** The loss of lines 341 to 346. *)
Definition masked_loss (pred_acc target_acc : T2 F) (particle_type : list Z)
  : result F :=
  let non_kinematic_mask := non_kinematic_mask_of particle_type in
  diff ← sub2 pred_acc target_acc;
  let loss := map (map f_sq) diff in
  let loss := sum_last loss in
  let num_non_kinematic := foldr Z.add 0 (map Z.b2z non_kinematic_mask) in
  loss ← where_or_zero non_kinematic_mask loss;
  Ok (f_div (sum1 loss) (f_of_Z num_non_kinematic)).

(** Noise masking, prediction and loss for one batch; returns the noise
    given to the simulator and the loss. *)
Definition train_batch (simulator : Simulator) (sampled_noise : T3 F)
    (position : T3 F) (particle_type : list Z) (edge_index : edge_index)
    (labels : T2 F) : result (T3 F * F) :=
  sampled_noise ← mask_noise sampled_noise particle_type;
  let '(pred_acc, target_acc) :=
    predict_accelerations simulator labels sampled_noise position
                          particle_type edge_index in
  loss ← masked_loss pred_acc target_acc particle_type;
  Ok (sampled_noise, loss).

(** *** _get_simulator

    The metadata keys that are read, and the keyword arguments given to
    [learned_simulator.Cylinder] and [LearnedCylinderSimulator]. *)

Record Geometry : Type := {
  axis_start : T1 F;
  axis_end : T1 F;
  radius : F;
}.

Record Metadata : Type := {
  dim : Z;
  sequence_length : Z;
  dt : F;
  geometry : Geometry;
  acc_mean : T1 F;
  acc_std : T1 F;
  vel_mean : T1 F;
  vel_std : T1 F;
}.

Record Stats : Type := {
  mean : T1 F;
  std : T1 F;
}.

Record NormalizationStats : Type := {
  acceleration : Stats;
  velocity : Stats;
}.

Record Cylinder : Type := {
  cyl_axis_start : T1 F;
  cyl_axis_end : T1 F;
  cyl_radius : F;
}.

Record SimulatorArgs : Type := {
  particle_dimensions : Z;
  nnode_in : Z;
  nedge_in : Z;
  latent_dim : Z;
  nmessage_passing_steps : Z;
  nmlp_layers : Z;
  mlp_hidden_dim : Z;
  cylinder : Cylinder;
  sim_radius : F;
  sim_dt : F;
  normalization_stats : NormalizationStats;
  nparticle_types : Z;
  particle_type_embedding_size : Z;
}.

(** [torch.sqrt(torch.FloatTensor(data_std)**2 + noise_std**2)] *)
Definition noisy_std (data_std : T1 F) (noise_std : F) : T1 F :=
  map f_sqrt (map (fun v => f_add v (f_sq noise_std)) (map f_sq data_std)).

Definition _get_simulator (metadata : Metadata)
    (acc_noise_std vel_noise_std : F) : SimulatorArgs :=
  let normalization_stats := {|
    acceleration := {| mean := acc_mean metadata;
                       std := noisy_std (acc_std metadata) acc_noise_std |};
    velocity := {| mean := vel_mean metadata;
                   std := noisy_std (vel_std metadata) vel_noise_std |};
  |} in
  let cylinder := {|
    cyl_axis_start := axis_start (geometry metadata);
    cyl_axis_end := axis_end (geometry metadata);
    cyl_radius := radius (geometry metadata);
  |} in
  {| particle_dimensions := dim metadata;
     nnode_in := if dim metadata =? 3 then 18 else 30;
     nedge_in := dim metadata + 1;
     latent_dim := 128;
     nmessage_passing_steps := 5;
     nmlp_layers := 2;
     mlp_hidden_dim := 128;
     cylinder := cylinder;
     sim_radius := radius (geometry metadata);
     sim_dt := dt metadata;
     normalization_stats := normalization_stats;
     nparticle_types := NUM_PARTICLE_TYPES;
     particle_type_embedding_size := 16 |}.

End Simulation.

(** *** train: checkpoint selection (lines 236 to 277)

    [fs] lists the paths that exist.  The code splices [model_path] and
    [exp_id] into the glob pattern and [exp_id] into the regular
    expression as they are.  The definitions below read both as literal
    text, which is what [glob.glob] and [re] do with names of ASCII
    characters none of which is special to them, and with a [model_path]
    written the way [glob] returns it (no doubled slash at its end). *)

(** [string] as a list of characters. *)
Definition chars (s : string) : list ascii := String.list_ascii_of_string s.

Definition is_digit (c : ascii) : bool :=
  let n := nat_of_ascii c in (48 <=? n)%nat && (n <=? 57)%nat.

(** [.] of a regular expression: any character but a newline. *)
Definition is_dot (c : ascii) : bool := negb (Ascii.eqb c "010"%char).

(** [Some rest] when [s] is [pre ++ rest]. *)
Fixpoint strip_prefix (pre s : list ascii) : option (list ascii) :=
  match pre, s with
  | [], _ => Some s
  | a :: pre', b :: s' => if Ascii.eqb a b then strip_prefix pre' s' else None
  | _ :: _, [] => None
  end.

Definition ends_with (suf s : list ascii) : bool :=
  bool_decide (drop (length s - length suf)%nat s = suf).

(** [glob.glob(f'{model_path}{exp_id}-model-*pt')]: the existing paths made
    of the fixed prefix, a stretch within one file name, and [pt]. *)
Definition glob_match (model_path exp_id p : string) : bool :=
  match strip_prefix (chars (model_path +:+ exp_id +:+ "-model-"))
                     (chars p) with
  | Some rest =>
      ends_with (chars "pt") rest
      && forallb (fun c => negb (Ascii.eqb c "/"%char)) rest
  | None => false
  end.

Definition glob_models (fs : list string) (model_path exp_id : string)
  : list string :=
  List.filter (glob_match model_path exp_id) fs.

(** [re.compile(f'.{exp_id}-model-(\d+).pt')], matched at the start of [s];
    the result is group 1.  [digits] is the longest run of digits after the
    prefix: the group takes [k] of them, the longest choice first, and the
    rest of the pattern has to match what follows. *)
Definition matches_dot_pt (s : list ascii) : bool :=
  match s with
  | c :: p :: t :: _ =>
      is_dot c && Ascii.eqb p "p"%char && Ascii.eqb t "t"%char
  | _ => false
  end.

Fixpoint match_group (k : nat) (digits rest : list ascii)
  : option (list ascii) :=
  match k with
  | O => None
  | S k' =>
      if matches_dot_pt (drop k digits ++ rest)
      then Some (take k digits)
      else match_group k' digits rest
  end.

Fixpoint span_digits (s : list ascii) : list ascii * list ascii :=
  match s with
  | c :: s' =>
      if is_digit c
      then let '(ds, rest) := span_digits s' in (c :: ds, rest)
      else ([], s)
  | [] => ([], [])
  end.

Definition match_here (exp_id : string) (s : list ascii)
  : option (list ascii) :=
  match s with
  | c :: s1 =>
      if is_dot c
      then match strip_prefix (chars (exp_id +:+ "-model-")) s1 with
           | Some s2 =>
               let '(digits, rest) := span_digits s2 in
               match_group (length digits) digits rest
           | None => None
           end
      else None
  | [] => None
  end.

(** [expr.search(fname)]: the leftmost match. *)
Fixpoint search (exp_id : string) (s : list ascii) : option (list ascii) :=
  match match_here exp_id s with
  | Some g => Some g
  | None =>
      match s with
      | _ :: s' => search exp_id s'
      | [] => None
      end
  end.

(** [int(digits)] *)
Definition int_of_digits (ds : list ascii) : Z :=
  foldl (fun acc c => 10 * acc + (Z.of_nat (nat_of_ascii c) - 48)) 0 ds.

(** [int(expr.search(fname).groups()[0])]: [search] gives [None] when
    nothing matches, and [None.groups()] is an AttributeError. *)
Definition model_number (exp_id fname : string) : result Z :=
  match search exp_id (chars fname) with
  | Some g => Ok (int_of_digits g)
  | None => Raise AttributeError
  end.

Record Flags : Type := {
  model_path : string;
  model_file : option string;
  train_state_file : string;
  exp_id : string;
}.

Definition model_name (exp_id : string) (n : Z) : string :=
  exp_id +:+ "-model-" +:+ pretty n +:+ ".pt".
Definition train_state_name (exp_id : string) (n : Z) : string :=
  exp_id +:+ "-train-state-" +:+ pretty n +:+ ".pt".

(** Lines 241 to 252: the flags after the [latest] branch. *)
Definition resolve_latest (fs : list string) (flags : Flags)
  : result Flags :=
  if bool_decide (model_file flags = Some "latest"
                  /\ train_state_file flags = "latest")
  then
    let fnames := glob_models fs (model_path flags) (exp_id flags) in
    max_model_number ←
      for_in fnames
        (fun fname (max_model_number : Z) =>
           model_num ← model_number (exp_id flags) fname;
           Ok (if (max_model_number <? model_num)%Z
               then model_num else max_model_number))
        0%Z;
    Ok {| model_path := model_path flags;
          model_file := Some (model_name (exp_id flags) max_model_number);
          train_state_file :=
            train_state_name (exp_id flags) max_model_number;
          exp_id := exp_id flags |}
  else Ok flags.

(** What the checkpoint code leaves behind: the flags, the checkpoint pair
    that was loaded if any, the training step, and the lines logged. *)
Record Resume : Type := {
  flags_after : Flags;
  loaded : option (string * string);
  step : Z;
  logged : list string;
}.

Definition os_path_exists (fs : list string) (p : string) : bool :=
  bool_decide (p ∈ fs).

(** Lines 236 to 277.  [saved_step path] is the [step] stored in the train
    state file at [path]. *)
Definition resume (fs : list string) (saved_step : string -> Z)
    (flags : Flags) : result Resume :=
  let step := 0%Z in
  match model_file flags with
  | Some _ =>
      flags ← resolve_latest fs flags;
      let model := model_path flags +:+ default EmptyString (model_file flags) in
      let train_state := model_path flags +:+ train_state_file flags in
      if os_path_exists fs model && os_path_exists fs train_state
      then Ok {| flags_after := flags;
                 loaded := Some (model, train_state);
                 step := saved_step train_state;
                 logged := [] |}
      else
        let msg := "Specified model_file " +:+ model
                   +:+ " and train_state_file " +:+ train_state
                   +:+ " not found." in
        Ok {| flags_after := flags;
              loaded := None;
              step := step;
              logged := [msg; "Starting training from scratch."] |}
  | None =>
      Ok {| flags_after := flags; loaded := None; step := step;
            logged := [] |}
  end.

End TrainBaseline.

(** ** src/gns.py: Encoder and Decoder

    The constructors; [forward] applies the learned functions they hold. *)

Module GnsNet.
Import Gns.

Section Networks.
Variable allocates : list Z -> bool.

(** [nn.LayerNorm(n)] allocates a weight and a bias of [n] elements. *)
Definition nn_LayerNorm (normalized_shape : Z) : result Z :=
  _ ← torch_empty allocates [normalized_shape];
  _ ← torch_empty allocates [normalized_shape];
  Ok normalized_shape.

(** The [nn.Sequential] of an MLP and the [nn.LayerNorm] after it. *)
Record NormedMlp : Type := {
  mlp : list (string * module);
  layer_norm : Z;
}.

Record Encoder : Type := {
  node_fn : NormedMlp;
  edge_fn : NormedMlp;
}.

(** [[mlp_hidden_dim for _ in range(nmlp_layers)]] *)
Definition hidden_layers (nmlp_layers mlp_hidden_dim : Z) : list Z :=
  replicate (Z.to_nat nmlp_layers) mlp_hidden_dim.

Definition normed_mlp (in_features out_features nmlp_layers
    mlp_hidden_dim : Z) : result NormedMlp :=
  net ← build_mlp allocates in_features
                  (hidden_layers nmlp_layers mlp_hidden_dim)
                  (Some out_features) None None;
  norm ← nn_LayerNorm out_features;
  Ok {| mlp := net; layer_norm := norm |}.

(** [Encoder.__init__] *)
Definition Encoder_init (nnode_in_features nnode_out_features
    nedge_in_features nedge_out_features nmlp_layers mlp_hidden_dim : Z)
  : result Encoder :=
  node ← normed_mlp nnode_in_features nnode_out_features
                    nmlp_layers mlp_hidden_dim;
  edge ← normed_mlp nedge_in_features nedge_out_features
                    nmlp_layers mlp_hidden_dim;
  Ok {| node_fn := node; edge_fn := edge |}.

(** [Decoder.__init__]: the decoder is its [node_fn]. *)
Definition Decoder_init (nnode_in nnode_out nmlp_layers mlp_hidden_dim : Z)
  : result (list (string * module)) :=
  build_mlp allocates nnode_in (hidden_layers nmlp_layers mlp_hidden_dim)
            (Some nnode_out) None None.

End Networks.

End GnsNet.

(** ** src/gns/train_baseline.py: predict, optimizer_to and the loop of
    train *)

Module TrainDriver.

(** The exceptions of this part: those of [exn], a missing file, a
    division or modulo by zero, a float result out of range, and an
    argument that a function refuses. *)
Inductive py_exn : Type :=
  | Builtin (e : exn)
  | FileNotFoundError (msg : string)
  | ZeroDivisionError
  | OverflowError
  | ValueError.

Inductive outcome (A : Type) : Type :=
  | Return (a : A)
  | Throw (e : py_exn).
Arguments Return {A} a.
Arguments Throw {A} e.

#[global] Instance outcome_ret : MRet outcome := fun _ a => Return a.
#[global] Instance outcome_bind : MBind outcome := fun _ _ f m =>
  match m with
  | Return a => f a
  | Throw e => Throw e
  end.

Definition lift {A} (r : result A) : outcome A :=
  match r with
  | Ok a => Return a
  | Raise e => Throw (Builtin e)
  end.

(** *** optimizer_to

    A value of [optim.state]: a tensor, with the device of its data and of
    its gradient when it has one, a dict, or anything else. *)
Section Optimizer.
Context {Device Key Payload : Type}.

Record Tensor : Type := {
  data_device : Device;
  grad_device : option Device;
  payload : Payload;
}.

#[warnings="-register-all"]
Inductive state_value : Type :=
  | TensorValue (t : Tensor)
  | DictValue (entries : list (Key * state_value))
  | OtherValue (p : Payload).

(** [t.data = t.data.to(device)], and the same for [t._grad] if any. *)
Definition tensor_to (device : Device) (t : Tensor) : Tensor :=
  {| data_device := device;
     grad_device := (fun _ => device) <$> grad_device t;
     payload := payload t |}.

(** The inner loop: tensors are moved, everything else is left alone. *)
Definition subparam_to (device : Device) (v : state_value) : state_value :=
  match v with
  | TensorValue t => TensorValue (tensor_to device t)
  | _ => v
  end.

Definition param_to (device : Device) (v : state_value) : state_value :=
  match v with
  | TensorValue t => TensorValue (tensor_to device t)
  | DictValue entries =>
      DictValue (map (fun kv => (kv.1, subparam_to device kv.2)) entries)
  | OtherValue p => OtherValue p
  end.

(** [optimizer_to(optim, device)] on the items of [optim.state]. *)
Definition optimizer_to (state : list (Key * state_value)) (device : Device)
  : list (Key * state_value) :=
  map (fun kv => (kv.1, param_to device kv.2)) state.

End Optimizer.

(** *** predict *)

(** [os.path.join(a, b)] *)
Definition os_path_join (a b : string) : string :=
  match TrainBaseline.strip_prefix (TrainBaseline.chars "/")
                                   (TrainBaseline.chars b) with
  | Some _ => b
  | None =>
      if bool_decide (a = EmptyString) then b
      else if TrainBaseline.ends_with (TrainBaseline.chars "/")
                                      (TrainBaseline.chars a)
           then a +:+ b
           else a +:+ "/" +:+ b
  end.

(** [os.makedirs(path)] for a path that does not exist. *)
Definition os_makedirs (fs : list string) (path : string)
  : outcome (list string) :=
  if bool_decide (path = EmptyString)
  then Throw (FileNotFoundError path)
  else Return (fs ++ [path]).

Section Predict.
Context {F : Type} `{Float F}.

Record PredictFlags : Type := {
  model_path : string;
  model_file : string;
  output_path : string;
  mode : string;
  noise_std : F;
}.

(** One item of the data loader. *)
Record Example : Type := {
  positions : T3 F;
  particle_type : list Z;
  n_particles_per_example : Z;
  edge_index : list (list Z);
  labels : T2 F;
}.

(** What [predict] leaves behind: the paths that exist, the rollouts
    pickled (with the metadata), and the mean loss printed per example. *)
Record Effects : Type := {
  fs_after : list string;
  written :
    list (string * (TrainBaseline.rollout_output (F := F) * TrainBaseline.Metadata (F := F)));
  example_losses : list F;
}.

(** [t.mean()] of a flat tensor. *)
Definition mean_of (t : T1 F) : F :=
  f_div (Torch.sum1 t) (f_of_Z (Z.of_nat (length t))).

(** [torch.cat(ts)] of flat tensors; an empty list is refused with
    ValueError. *)
Definition cat_flat (ts : list (T1 F)) : outcome (T1 F) :=
  match ts with
  | [] => Throw ValueError
  | _ => Return (concat ts)
  end.

(** Body of the loop over the data loader, after the [break] test. *)
Definition predict_example (simulator : TrainBaseline.Simulator (F := F))
    (metadata : TrainBaseline.Metadata (F := F)) (flags : PredictFlags)
    (example_i : nat) (ex : Example) (st : Effects * list (T1 F))
  : outcome (Effects * list (T1 F)) :=
  let '(eff, eval_loss) := st in
  let nsteps :=
    TrainBaseline.sequence_length metadata
    - Z.of_nat TrainBaseline.INPUT_SEQUENCE_LENGTH in
  '(example_rollout, loss) ←
    lift (TrainBaseline.rollout simulator (positions ex) (labels ex)
            (particle_type ex) (edge_index ex) nsteps);
  let eval_loss := eval_loss ++ [concat loss] in
  let losses := example_losses eff ++ [mean_of (concat loss)] in
  if bool_decide (mode flags = "rollout")
  then
    let filename :=
      os_path_join (output_path flags)
                   ("rollout_" +:+ pretty example_i +:+ ".pkl") in
    Return ({| fs_after := fs_after eff ++ [filename];
               written := written eff ++ [(filename,
                                           (example_rollout, metadata))];
               example_losses := losses |},
            eval_loss)
  else
    Return ({| fs_after := fs_after eff;
               written := written eff;
               example_losses := losses |},
            eval_loss).

(** [for example_i, (...) in enumerate(ds)] with its
    [if example_i > 0: break]. *)
Fixpoint predict_loop (simulator : TrainBaseline.Simulator (F := F))
    (metadata : TrainBaseline.Metadata (F := F)) (flags : PredictFlags)
    (example_i : nat) (ds : list Example) (st : Effects * list (T1 F))
  : outcome (Effects * list (T1 F)) :=
  match ds with
  | [] => Return st
  | ex :: rest =>
      if (0 <? example_i)%nat then Return st
      else
        st ← predict_example simulator metadata flags example_i ex st;
        predict_loop simulator metadata flags (S example_i) rest st
  end.

(** [predict].  [load args path] is the simulator built from [args] with
    the weights of the file at [path]; [metadata] is what [read_metadata]
    returns and [ds] what the data loader yields.  Returns the effects and
    the mean loss printed at the end. *)
Definition predict (fs : list string)
    (load : TrainBaseline.SimulatorArgs (F := F) -> string ->
            TrainBaseline.Simulator (F := F))
    (metadata : TrainBaseline.Metadata (F := F)) (ds : list Example)
    (flags : PredictFlags) : outcome (Effects * F) :=
  let args :=
    TrainBaseline._get_simulator metadata (noise_std flags) (noise_std flags)
  in
  let path := model_path flags +:+ model_file flags in
  simulator ←
    (if TrainBaseline.os_path_exists fs path
     then Return (load args path)
     else Throw (FileNotFoundError
                   ("Model file " +:+ path +:+ " not found.")));
  fs ← (if TrainBaseline.os_path_exists fs (output_path flags)
        then Return fs
        else os_makedirs fs (output_path flags));
  '(eff, eval_loss) ←
    predict_loop simulator metadata flags 0 ds
      ({| fs_after := fs; written := []; example_losses := [] |}, []);
  all_losses ← cat_flat eval_loss;
  Return (eff, mean_of all_losses).

End Predict.

(** *** train: the training loop (lines 301 to 387)

    The loss of a batch, the optimizer update and the value of the learning
    rate belong to the simulator and the optimizer; the loop is modelled by
    its control flow and the order of its effects.  [run_batch step b]
    stands for lines 311 to 351 on batch [b] at step [step].  [update_lr
    step] stands for the rest of line 354 once [lr_decay_steps] is known
    not to be 0, and for lines 355 and 356: the power of [lr_decay] is a
    float operation, which raises when its result is out of range or when
    0.0 is raised to a negative power. *)
Section Loop.
Context {B : Type}.

Record LoopFlags : Type := {
  ntraining_steps : Z;
  nsave_steps : Z;
  nlog_steps : Z;
  lr_decay_steps : Z;
  is_main : bool;
}.

Inductive event : Type :=
  | OptimizerStep (step : Z)
  | LogLoss (step : Z)
  | SaveCheckpoint (step : Z)
  | SaveLossPlot.

Record loop_state : Type := {
  step : Z;
  events : list event;
}.

Variable run_batch : Z -> B -> result unit.
Variable update_lr : Z -> outcome unit.

(** [a % b == 0] *)
Definition divides_step (a b : Z) : outcome bool :=
  if b =? 0 then Throw ZeroDivisionError else Return (a mod b =? 0).

(** Body of [for (...) in dl]; the flag returned is false after [break]. *)
Definition train_body (flags : LoopFlags) (b : B) (st : loop_state)
  : outcome (loop_state * bool) :=
  let step := step st in
  _ ← lift (run_batch step b);
  let events := events st ++ [OptimizerStep step] in
  (* lr_new uses step / lr_decay_steps *)
  _ ← (if lr_decay_steps flags =? 0
       then Throw ZeroDivisionError else update_lr step);
  log ← divides_step step (nlog_steps flags);
  let events := if log : bool then events ++ [LogLoss step] else events in
  events ←
    (if is_main flags
     then save ← divides_step step (nsave_steps flags);
          Return (if save : bool
                  then events ++ [SaveCheckpoint step] else events)
     else Return events);
  if ntraining_steps flags <=? step
  then Return ({| step := step; events := events |}, false)
  else Return ({| step := step + 1; events := events |}, true).

(** One pass over the data loader. *)
Fixpoint train_epoch (flags : LoopFlags) (batches : list B)
    (st : loop_state) : outcome (loop_state * bool) :=
  match batches with
  | [] => Return (st, true)
  | b :: rest =>
      '(st, not_reached_nsteps) ← train_body flags b st;
      if not_reached_nsteps : bool
      then train_epoch flags rest st
      else Return (st, false)
  end.

(** [while not_reached_nsteps], then the loss plot; [None] when [fuel]
    passes over the data loader were not enough to leave the loop. *)
Fixpoint train_loop (fuel : nat) (flags : LoopFlags) (dl : list B)
    (st : loop_state) : option (outcome loop_state) :=
  match fuel with
  | O => None
  | S fuel =>
      match train_epoch flags dl st with
      | Throw e => Some (Throw e)
      | Return (st, true) => train_loop fuel flags dl st
      | Return (st, false) =>
          Some (Return {| step := step st;
                          events := events st ++ [SaveLossPlot] |})
      end
  end.




End Loop.

End TrainDriver.

(** ** Vocabulary of the statements *)

Definition layer_name (i : nat) : string := "NN-" +:+ pretty i.
Definition act_name (i : nat) : string := "Act-" +:+ pretty i.

(** [mlp] is the chain of linear layers along [sizes]: layer [i] maps size
    [i] to size [i + 1] and is followed by [activation], the last one by
    [output_activation]. *)
Definition mlp_of_sizes (sizes : list Z)
    (output_activation activation : Gns.module_class)
    (mlp : list (string * Gns.module)) : Prop :=
  length mlp = (2 * (length sizes - 1))%nat
  /\ forall i, (i + 1 < length sizes)%nat ->
       exists n_in n_out,
         sizes !! i = Some n_in
         /\ sizes !! (i + 1)%nat = Some n_out
         /\ mlp !! (2 * i)%nat = Some (layer_name i, Gns.Linear n_in n_out)
         /\ mlp !! (2 * i + 1)%nat
            = Some (act_name i,
                    Gns.Activation (if decide (i + 2 = length sizes)%nat
                                    then output_activation
                                    else activation)).

Section Shapes.
Context {F : Type}.

(** Sizes of a rank 2 tensor [(n, d)] and of a rank 3 tensor [(n, c, d)]. *)
Definition has_shape2 (n d : nat) (t : T2 F) : Prop :=
  length t = n /\ Forall (fun p => length p = d) t.

Definition has_shape3 (n c d : nat) (t : T3 F) : Prop :=
  length t = n /\ Forall (has_shape2 c d) t.

(** The window of every particle without its oldest position and with the
    particle's row of [next] at the end. *)
Definition shift_window (window : T3 F) (next : T2 F) : T3 F :=
  zip_with (fun w p => drop 1 w ++ [p]) window next.

End Shapes.

(** A simulator on integer scalars to run the drivers on: every particle
    moves one unit along every axis from its latest position, and the
    predicted acceleration is the label against a zero target. *)
Definition drift_simulator : TrainBaseline.Simulator (F := Z) := {|
  TrainBaseline.predict_positions := fun window _ _ =>
    map (fun w => map (Z.add 1) (List.last w [])) window;
  TrainBaseline.predict_accelerations := fun next_positions _ _ _ _ =>
    (next_positions, map (map (fun _ => 0)) next_positions);
|}.

(** Two particles on a line: the first is kinematic and prescribed to stay
    at 0, the second moves one unit per step. *)
Definition example_position : list (list (list Z)) :=
  [ [[0]; [0]; [0]; [0]; [0]; [0]];
    [[0]; [1]; [2]; [3]; [4]; [5]] ].
Definition example_types : list Z := [TrainBaseline.KINEMATIC_PARTICLE_ID; 0].
Definition example_label : list (list Z) := [[0]; [6]].

Section LossVocabulary.
Context {F : Type} `{Float F}.
Import Torch.

Definition is_kinematic (t : Z) : bool :=
  t =? TrainBaseline.KINEMATIC_PARTICLE_ID.

(** The squared acceleration error of each particle, summed over the
    spatial dimensions. *)
Definition particle_errors (pred_acc target_acc : T2 F) : T1 F :=
  zip_with (fun p t => sum1 (map f_sq (zip_with f_sub p t)))
           pred_acc target_acc.

(** What each particle adds to the numerator of the loss. *)
Definition loss_contributions (types : list Z) (errors : T1 F) : T1 F :=
  zip_with (fun t e => if is_kinematic t then f_zero else e) types errors.

(** The errors of the particles that are not kinematic. *)
Definition non_kinematic_errors (types : list Z) (errors : T1 F) : T1 F :=
  map snd (List.filter (fun te => negb (is_kinematic te.1))
                       (zip types errors)).

Definition count_non_kinematic (types : list Z) : Z :=
  Z.of_nat (length (List.filter (fun t => negb (is_kinematic t)) types)).

End LossVocabulary.

(** The resolved checkpoint pair is on disk. *)
Definition checkpoint_pair_exists (fs : list string)
    (flags : TrainBaseline.Flags) : bool :=
  TrainBaseline.os_path_exists fs
    (TrainBaseline.model_path flags
     +:+ default EmptyString (TrainBaseline.model_file flags))
  && TrainBaseline.os_path_exists fs
       (TrainBaseline.model_path flags
        +:+ TrainBaseline.train_state_file flags).

Definition not_found_message (flags : TrainBaseline.Flags) : string :=
  "Specified model_file "
  +:+ (TrainBaseline.model_path flags
       +:+ default EmptyString (TrainBaseline.model_file flags))
  +:+ " and train_state_file "
  +:+ (TrainBaseline.model_path flags
       +:+ TrainBaseline.train_state_file flags)
  +:+ " not found.".


Definition latest_flags : TrainBaseline.Flags := {|
  TrainBaseline.model_path := "models/";
  TrainBaseline.model_file := Some "latest";
  TrainBaseline.train_state_file := "latest";
  TrainBaseline.exp_id := "exp";
|}.

(** A model file whose train state is missing. *)
Definition unpaired_fs : list string := [ "models/exp-model-5.pt" ].

Definition unpaired_flags : TrainBaseline.Flags := {|
  TrainBaseline.model_path := "models/";
  TrainBaseline.model_file := Some "exp-model-5.pt";
  TrainBaseline.train_state_file := "exp-train-state-5.pt";
  TrainBaseline.exp_id := "exp";
|}.

(** A size that is not negative. *)
Definition nonneg (z : Z) : bool := 0 <=? z.

(** The input and output size of each linear layer along [sizes], and the
    shapes of their weights and biases. *)
Definition layer_pairs (sizes : list Z) : list (Z * Z) :=
  zip sizes (drop 1 sizes).

Definition parameter_shapes (sizes : list Z) : list (list Z) :=
  flat_map (fun p => [[p.2; p.1]; [p.2]]) (layer_pairs sizes).

(** [nn.Linear(p.1, p.2)] returns: no size is negative and the weight and
    the bias are allocated. *)
Definition linear_accepted (allocates : list Z -> bool) (p : Z * Z) : bool :=
  nonneg p.1 && nonneg p.2 && allocates [p.2; p.1] && allocates [p.2].

Definition layers_accepted (allocates : list Z -> bool) (sizes : list Z)
  : bool :=
  forallb (linear_accepted allocates) (layer_pairs sizes).

(** An allocator that provides tensors of up to [limit] elements. *)
Definition room_for (limit : Z) (shape : list Z) : bool :=
  foldr Z.mul 1 shape <=? limit.

(** The names [build_mlp] registers in [k] rounds. *)
Definition module_names (k : nat) : list string :=
  concat (map (fun i => [layer_name i; act_name i]) (seq 0 k)).

(** The character before the step number in a checkpoint name. *)
Definition dash : ascii := "-"%char.

(** The conditions on the text before the step number: the model path ends
    in a character other than a newline, and the pattern finds nothing in
    the model path followed by the experiment id and [-model-]. *)
Definition plain_prefix (model_path exp_id : string) : Prop :=
  (exists front c, TrainBaseline.chars model_path = front ++ [c] /\ TrainBaseline.is_dot c = true)
  /\ TrainBaseline.search exp_id (TrainBaseline.chars (model_path +:+ exp_id +:+ "-model-")) = None.


(** The flags with the checkpoint pair of step [n]. *)
Definition flags_at (flags : TrainBaseline.Flags) (n : Z)
  : TrainBaseline.Flags :=
  {| TrainBaseline.model_path := TrainBaseline.model_path flags;
     TrainBaseline.model_file :=
       Some (TrainBaseline.model_name (TrainBaseline.exp_id flags) n);
     TrainBaseline.train_state_file :=
       TrainBaseline.train_state_name (TrainBaseline.exp_id flags) n;
     TrainBaseline.exp_id := TrainBaseline.exp_id flags |}.

(** Characters that [glob] reads literally (ASCII and none of its
    wildcards), and those that a regular expression reads literally too. *)
Definition glob_literal (c : ascii) : bool :=
  (nat_of_ascii c <? 128)%nat
  && negb (existsb (Ascii.eqb c) (TrainBaseline.chars "*?[")).

Definition regex_literal (c : ascii) : bool :=
  glob_literal c
  && negb (existsb (Ascii.eqb c) (TrainBaseline.chars ".^$+{}]\|()")).

(** The names for which the glob and the pattern of the [latest] branch
    mean what [glob_match] and [search] compute. *)
Definition plain_names (model_path exp_id : string) : bool :=
  forallb glob_literal (TrainBaseline.chars model_path)
  && negb (TrainBaseline.ends_with (TrainBaseline.chars "//")
                                   (TrainBaseline.chars model_path))
  && forallb regex_literal (TrainBaseline.chars exp_id).



Definition both_latest (flags : TrainBaseline.Flags) : Prop :=
  TrainBaseline.model_file flags = Some "latest"
  /\ TrainBaseline.train_state_file flags = "latest".

Section PredictVocabulary.
Context {F : Type} `{Float F}.



End PredictVocabulary.





Section OptimizerVocabulary.
Context {Device Key Payload : Type}.

(** The data of a tensor, and its gradient if any, are on [device]. *)
Definition tensor_on (device : Device)
    (t : TrainDriver.Tensor (Device := Device) (Payload := Payload)) : Prop :=
  TrainDriver.data_device t = device
  /\ (TrainDriver.grad_device t = None
      \/ TrainDriver.grad_device t = Some device).

(** A tensor without its devices: whether it has a gradient, and its
    payload. *)
Definition tensor_content
    (t : TrainDriver.Tensor (Device := Device) (Payload := Payload))
  : bool * Payload :=
  (bool_decide (is_Some (TrainDriver.grad_device t)), TrainDriver.payload t).

(** A state value as [optimizer_to] sees it: with the devices of the
    tensors it can reach left out. *)
Definition entry_content
    (v : TrainDriver.state_value (Device := Device) (Key := Key)
                                 (Payload := Payload))
  : (bool * Payload) + TrainDriver.state_value (Device := Device)
                         (Key := Key) (Payload := Payload) :=
  match v with
  | TrainDriver.TensorValue t => inl (tensor_content t)
  | _ => inr v
  end.

Definition value_content
    (v : TrainDriver.state_value (Device := Device) (Key := Key)
                                 (Payload := Payload)) :=
  match v with
  | TrainDriver.TensorValue t => inl (inl (tensor_content t))
  | TrainDriver.DictValue entries =>
      inl (inr (map (fun kv => (kv.1, entry_content kv.2)) entries))
  | TrainDriver.OtherValue p => inr p
  end.

End OptimizerVocabulary.

(** The events of one pass of the loop body at step [s]. *)
Definition step_events (flags : TrainDriver.LoopFlags) (s : Z)
  : list TrainDriver.event :=
  [TrainDriver.OptimizerStep s]
  ++ (if s mod TrainDriver.nlog_steps flags =? 0
      then [TrainDriver.LogLoss s] else [])
  ++ (if TrainDriver.is_main flags
         && (s mod TrainDriver.nsave_steps flags =? 0)
      then [TrainDriver.SaveCheckpoint s] else []).

(** [count] consecutive steps from [first]; the steps up to [last]. *)
Definition steps_from (first : Z) (count : nat) : list Z :=
  map (fun k => first + Z.of_nat k) (seq 0 count).

Definition step_range (first last : Z) : list Z :=
  steps_from first (Z.to_nat (last - first + 1)).

(** The steps at which a run saved a checkpoint. *)
Definition saved_steps (events : list TrainDriver.event) : list Z :=
  flat_map (fun e => match e with
                     | TrainDriver.SaveCheckpoint s => [s]
                     | _ => []
                     end) events.

(** No interval of the loop is 0. *)
Definition intervals_set (flags : TrainDriver.LoopFlags) : Prop :=
  TrainDriver.lr_decay_steps flags <> 0
  /\ TrainDriver.nlog_steps flags <> 0
  /\ (TrainDriver.is_main flags = true -> TrainDriver.nsave_steps flags <> 0).

(** A run on the main process: log every 3 steps, save every 2, stop at
    step 5. *)
Definition example_loop_flags : TrainDriver.LoopFlags := {|
  TrainDriver.ntraining_steps := 5;
  TrainDriver.nsave_steps := 2;
  TrainDriver.nlog_steps := 3;
  TrainDriver.lr_decay_steps := 10;
  TrainDriver.is_main := true;
|}.

Definition run_any_batch (step : Z) (b : unit) : result unit := Ok tt.

Definition update_any_lr (step : Z) : TrainDriver.outcome unit :=
  TrainDriver.Return tt.


(** * Properties *)

(** ** Loops and list helpers *)

Section Loops.
Context {A St : Type}.

Lemma for_in_snoc (xs : list A) (x : A) (body : A -> St -> result St)
    (s : St) :
  for_in (xs ++ [x]) body s = (s' ← for_in xs body s; body x s').
Proof.
  revert s. induction xs as [|y xs IH]; intros s; simpl.
  - destruct (body x s); reflexivity.
  - destruct (body y s) as [s1|e]; simpl; [apply IH | reflexivity].
Qed.

End Loops.

Lemma for_in_seq_S {St} (k : nat) (body : nat -> St -> result St) (s : St) :
  for_in (seq 0 (S k)) body s = (s' ← for_in (seq 0 k) body s; body k s').
Proof. rewrite seq_S. apply for_in_snoc. Qed.

Lemma bind_Ok {A B} (a : A) (f : A -> result B) : (Ok a ≫= f) = f a.
Proof. reflexivity. Qed.

Lemma getitem_Some {A} (l : list A) (i : nat) (a : A) :
  l !! i = Some a -> getitem l i = Ok a.
Proof. unfold getitem. intros ->. reflexivity. Qed.

Lemma setitem_last_replicate {A} (n : nat) (x y : A) :
  setitem_last (replicate (S n) x) y
  = Ok (<[n := y]> (replicate (S n) x)).
Proof. unfold setitem_last. simpl. rewrite length_replicate. reflexivity. Qed.

Lemma lookup_insert_replicate {A} (n i : nat) (x y : A) :
  (i <= n)%nat ->
  <[n := y]> (replicate (S n) x) !! i
  = Some (if decide (i = n) then y else x).
Proof.
  intros Hi. destruct (decide (i = n)) as [->|Hne].
  - apply list_lookup_insert_eq. rewrite length_replicate. lia.
  - rewrite list_lookup_insert_ne by congruence.
    apply lookup_replicate_2. lia.
Qed.

(** ** build_mlp *)

Section BuildMlp.
Import Gns.
Variable allocates : list Z -> bool.

Lemma nn_Linear_outcome (i o : Z) :
  nn_Linear allocates i o
  = if linear_accepted allocates (i, o)
    then Ok (Linear i o) else Raise RuntimeError.
Proof.
  unfold nn_Linear, torch_empty, linear_accepted, nonneg. cbn [forallb fst snd].
  destruct (0 <=? i), (0 <=? o), (allocates [o; i]), (allocates [o]);
    reflexivity.
Qed.

Lemma layer_pairs_lookup (sizes : list Z) (i : nat) (a b : Z) :
  sizes !! i = Some a ->
  sizes !! (i + 1)%nat = Some b ->
  layer_pairs sizes !! i = Some (a, b).
Proof.
  intros Ha Hb. unfold layer_pairs. apply lookup_zip_Some.
  split; [exact Ha |]. rewrite lookup_drop.
  replace (1 + i)%nat with (i + 1)%nat by lia. exact Hb.
Qed.

Lemma layer_pairs_length (sizes : list Z) :
  length (layer_pairs sizes) = (length sizes - 1)%nat.
Proof. unfold layer_pairs. rewrite length_zip, length_drop. lia. Qed.

Lemma layers_accepted_lookup (sizes : list Z) (i : nat) (a b : Z) :
  layers_accepted allocates sizes = true ->
  sizes !! i = Some a ->
  sizes !! (i + 1)%nat = Some b ->
  linear_accepted allocates (a, b) = true.
Proof.
  intros Hall Ha Hb. unfold layers_accepted in Hall.
  rewrite forallb_forall in Hall. apply Hall.
  apply list_elem_of_In, list_elem_of_lookup. exists i.
  apply layer_pairs_lookup; assumption.
Qed.

(** Sizes that are not negative and parameters that are all allocated:
    every linear layer is accepted. *)
Lemma layers_accepted_intro (sizes : list Z) :
  Forall (fun z => 0 <= z) sizes ->
  Forall (fun shape => allocates shape = true) (parameter_shapes sizes) ->
  layers_accepted allocates sizes = true.
Proof.
  intros Hpos Hfit. unfold layers_accepted. apply forallb_forall.
  intros [a b] Hp.
  assert (In [b; a] (parameter_shapes sizes)
          /\ In [b] (parameter_shapes sizes)) as [Hweight Hbias].
  { unfold parameter_shapes.
    split; apply in_flat_map; exists (a, b);
      (split; [exact Hp | simpl; auto]). }
  rewrite List.Forall_forall in Hpos, Hfit.
  apply list_elem_of_In in Hp. unfold layer_pairs in Hp.
  pose proof (elem_of_zip_l _ _ _ _ Hp) as Ha.
  pose proof (elem_of_zip_r _ _ _ _ Hp) as Hb.
  apply list_elem_of_In in Ha.
  assert (In b sizes) as Hb'.
  { apply list_elem_of_In. apply list_elem_of_lookup in Hb as [i Hi].
    rewrite lookup_drop in Hi. apply list_elem_of_lookup. eauto. }
  unfold linear_accepted, nonneg. cbn [fst snd].
  rewrite (Hfit _ Hweight), (Hfit _ Hbias).
  rewrite (proj2 (Z.leb_le 0 a) (Hpos _ Ha)).
  rewrite (proj2 (Z.leb_le 0 b) (Hpos _ Hb')). reflexivity.
Qed.

(** The first [k] rounds of the loop register [2 * k] modules in order:
    round [i] a linear layer from size [i] to size [i + 1], then the
    activation at index [i]. *)
Lemma add_layers_spec (layer_sizes : list Z) (act : list module_class)
    (k : nat) :
  (k + 1 <= length layer_sizes)%nat ->
  (k <= length act)%nat ->
  layers_accepted allocates layer_sizes = true ->
  exists mlp,
    for_in (seq 0 k) (add_layer allocates layer_sizes act) [] = Ok mlp
    /\ length mlp = (2 * k)%nat
    /\ forall i, (i < k)%nat ->
         exists n_in n_out cls,
           layer_sizes !! i = Some n_in
           /\ layer_sizes !! (i + 1)%nat = Some n_out
           /\ act !! i = Some cls
           /\ mlp !! (2 * i)%nat = Some (layer_name i, Linear n_in n_out)
           /\ mlp !! (2 * i + 1)%nat = Some (act_name i, Activation cls).
Proof.
  intros Hsz Hact Hpos. induction k as [|k IH].
  - exists []. split; [reflexivity | split; [reflexivity |]].
    intros i Hi. lia.
  - destruct IH as (mlp & Hrun & Hlen & Hlayers); [lia | lia |].
    destruct (lookup_lt_is_Some_2 layer_sizes k) as [n_in Hin]; [lia|].
    destruct (lookup_lt_is_Some_2 layer_sizes (k + 1)) as [n_out Hout]; [lia|].
    destruct (lookup_lt_is_Some_2 act k) as [cls Hcls]; [lia|].
    pose proof (layers_accepted_lookup _ _ _ _ Hpos Hin Hout) as Haccepted.
    set (lin := (layer_name k, Linear n_in n_out)).
    set (fn := (act_name k, Activation cls)).
    exists ((mlp ++ [lin]) ++ [fn]). split; [|split].
    + rewrite for_in_seq_S, Hrun. simpl. unfold add_layer.
      rewrite (getitem_Some _ _ _ Hin), (getitem_Some _ _ _ Hout). simpl.
      rewrite nn_Linear_outcome, Haccepted.
      simpl. rewrite (getitem_Some _ _ _ Hcls). reflexivity.
    + rewrite !length_app. simpl. lia.
    + intros i Hi. destruct (decide (i = k)) as [->|Hne].
      * exists n_in, n_out, cls. repeat split; try assumption.
        -- rewrite lookup_app_l by (rewrite length_app; simpl; lia).
           apply list_lookup_middle. lia.
        -- apply list_lookup_middle. rewrite length_app. simpl. lia.
      * destruct (Hlayers i) as (a & b & c & H1 & H2 & H3 & H4 & H5); [lia|].
        exists a, b, c. repeat split; try assumption.
        -- rewrite <- app_assoc. rewrite lookup_app_l by lia. exact H4.
        -- rewrite <- app_assoc. rewrite lookup_app_l by lia. exact H5.
Qed.

(** [build_mlp] on a size list of at least two entries whose linear layers
    are all accepted. *)
Lemma build_mlp_run (input_size : Z) (hidden : list Z) (output_size : option Z)
    (output_activation activation : option module_class) :
  let layer_sizes := layer_sizes_of input_size hidden output_size in
  (2 <= length layer_sizes)%nat ->
  layers_accepted allocates layer_sizes = true ->
  exists mlp,
    build_mlp allocates input_size hidden output_size
              output_activation activation
    = Ok mlp
    /\ mlp_of_sizes layer_sizes (default Identity output_activation)
                    (default ReLU activation) mlp.
Proof.
  intros layer_sizes Hlen Hpos. unfold build_mlp. fold layer_sizes.
  destruct (length layer_sizes) as [|[|n]] eqn:Hn; [lia | lia |].
  replace (S (S n) - 1)%nat with (S n) by lia.
  rewrite setitem_last_replicate, bind_Ok.
  set (act := <[n := _]> _).
  destruct (add_layers_spec layer_sizes act (S n))
    as (mlp & Hrun & Hmlp & Hlayers).
  - lia.
  - unfold act. rewrite length_insert, length_replicate. lia.
  - exact Hpos.
  - exists mlp. split; [exact Hrun |]. split; [rewrite Hmlp, Hn; lia |].
    rewrite Hn. intros i Hi.
    destruct (Hlayers i) as (a & b & c & H1 & H2 & H3 & H4 & H5); [lia|].
    exists a, b. repeat split; try assumption.
    unfold act in H3. rewrite lookup_insert_replicate in H3 by lia.
    injection H3 as <-. rewrite H5. repeat f_equal.
    destruct (decide (i = n)), (decide (i + 2 = S (S n))%nat);
      reflexivity || lia.
Qed.

(** C3, as stated, fails: with no hidden layer and an output size of 2 the
    builder returns one linear layer followed by the output activation. *)
Lemma build_mlp_empty_hidden_returns :
  ~ (forall allocates input_size output_size output_activation activation,
        raises (build_mlp allocates input_size [] output_size
                          output_activation activation)).
Proof.
  intros Hall.
  destruct (Hall (room_for 1000000) 4 (Some 2) None None) as [e He].
  vm_compute in He. discriminate He.
Qed.

(** C3 (amended): with an empty hidden-layer list, [build_mlp] raises
    (IndexError, from [act[-1] = output_activation] on an empty list) when
    the output size is omitted or is 0, for every input size and every
    activation choice. *)
Theorem build_mlp_empty_hidden_raises (input_size : Z)
    (output_activation activation : option module_class) :
  build_mlp allocates input_size [] None output_activation activation
  = Raise IndexError
  /\ build_mlp allocates input_size [] (Some 0) output_activation activation
     = Raise IndexError.
Proof. split; reflexivity. Qed.

(** C4, as stated, fails at output size 0: the size list [4; 8; 0] asks for
    two linear layers, the builder returns the one from 4 to 8. *)
Lemma build_mlp_drops_zero_output :
  ~ (exists mlp,
        build_mlp (room_for 1000000) 4 [8] (Some 0) None None = Ok mlp
        /\ mlp_of_sizes ([4] ++ [8] ++ [0]) Identity ReLU mlp).
Proof.
  intros (mlp & Hrun & Hlen & _). vm_compute in Hrun.
  injection Hrun as <-. vm_compute in Hlen. discriminate Hlen.
Qed.

(** C4 (amended): for non-negative sizes, a non-empty hidden-layer list,
    an output size other than 0 and a machine that allocates the weight and
    the bias of every layer, [build_mlp] returns the chain of linear
    layers along [[input_size] ++ hidden_layer_sizes ++ [output_size]];
    every linear layer but the last is followed by the hidden activation
    (ReLU when omitted) and the last by the output activation (Identity
    when omitted). *)
Theorem build_mlp_layers (input_size : Z) (hidden : list Z) (output_size : Z)
    (output_activation activation : option module_class) :
  hidden <> [] ->
  0 <= input_size ->
  Forall (fun z => 0 <= z) hidden ->
  0 < output_size ->
  Forall (fun shape => allocates shape = true)
         (parameter_shapes ([input_size] ++ hidden ++ [output_size])) ->
  exists mlp,
    build_mlp allocates input_size hidden (Some output_size)
              output_activation activation = Ok mlp
    /\ mlp_of_sizes ([input_size] ++ hidden ++ [output_size])
                    (default Identity output_activation)
                    (default ReLU activation) mlp.
Proof.
  intros _ Hin Hhid Hout Hfit.
  pose proof (build_mlp_run input_size hidden (Some output_size)
                            output_activation activation) as Hrun.
  assert (layer_sizes_of input_size hidden (Some output_size)
          = [input_size] ++ hidden ++ [output_size]) as Hsizes.
  { unfold layer_sizes_of, truthy.
    replace (output_size =? 0) with false by (symmetry; apply Z.eqb_neq; lia).
    simpl. reflexivity. }
  rewrite Hsizes in Hrun. apply Hrun.
  - simpl. rewrite length_app. simpl. lia.
  - apply layers_accepted_intro; [| exact Hfit].
    simpl. constructor; [exact Hin |]. apply Forall_app. split; [exact Hhid |].
    constructor; [lia | constructor].
Qed.

End BuildMlp.

Lemma build_mlp_layers_witness :
  [8; 8] <> [] /\ 0 < 3 /\
  exists mlp,
    Gns.build_mlp (room_for 1000000) 4 [8; 8] (Some 3) None
                  (Some (Gns.Named "Tanh")) = Ok mlp
    /\ mlp_of_sizes [4; 8; 8; 3] Gns.Identity (Gns.Named "Tanh") mlp.
Proof.
  split; [discriminate | split; [lia |]].
  apply (build_mlp_layers (room_for 1000000) 4 [8; 8] 3 None
           (Some (Gns.Named "Tanh"))).
  - discriminate.
  - lia.
  - repeat constructor; lia.
  - lia.
  - repeat constructor.
Defined.

Section BuildMlpZeroOutput.
Import Gns.
Variable allocates : list Z -> bool.


End BuildMlpZeroOutput.


(** ** Tensor operations on tensors of matching shape *)

Section TensorLemmas.
Context {F : Type} `{Float F}.
Import Torch.

Lemma mapM_Ok_Forall {A B} (f : A -> result B) (g : A -> B) (l : list A) :
  Forall (fun x => f x = Ok (g x)) l -> mapM f l = Ok (map g l).
Proof.
  induction 1 as [|x l Hx _ IH]; [reflexivity |].
  simpl. rewrite Hx, bind_Ok, IH. reflexivity.
Qed.

Lemma broadcast_same_length {A B C} (f : A -> B -> result C)
    (g : A -> B -> C) (a : list A) (b : list B) :
  length a = length b ->
  Forall (fun ab => f ab.1 ab.2 = Ok (g ab.1 ab.2)) (zip a b) ->
  broadcast f a b = Ok (zip_with g a b).
Proof.
  intros Hlen Hall. unfold broadcast.
  destruct (decide (length a = length b)) as [_|Hne]; [|contradiction].
  rewrite (mapM_Ok_Forall _ (fun ab => g ab.1 ab.2)) by exact Hall.
  f_equal. clear. revert b. induction a as [|x a IH]; intros [|y b]; simpl;
    try reflexivity. f_equal. apply IH.
Qed.

Lemma Forall_zip_shape2 (n d : nat) (a b : T2 F) (P : list F * list F -> Prop) :
  has_shape2 n d a -> has_shape2 n d b ->
  (forall p q, length p = d -> length q = d -> P (p, q)) ->
  Forall P (zip a b).
Proof.
  intros [_ Ha] [_ Hb] HP. revert b Hb.
  induction Ha as [|p a Hp _ IH]; intros b Hb; [constructor |].
  destruct Hb as [|q b Hq Hb]; [constructor |].
  simpl. constructor; [apply HP; assumption | apply IH; assumption].
Qed.

Lemma sub2_same_shape (n d : nat) (a b : T2 F) :
  has_shape2 n d a -> has_shape2 n d b ->
  sub2 a b = Ok (zip_with (zip_with f_sub) a b).
Proof.
  intros Ha Hb. unfold sub2. apply broadcast_same_length.
  - destruct Ha as [-> _], Hb as [-> _]. reflexivity.
  - apply (Forall_zip_shape2 n d); [assumption | assumption |].
    intros p q Hp Hq. simpl. apply broadcast_same_length; [congruence |].
    apply List.Forall_forall. intros; reflexivity.
Qed.

Lemma shape2_replicate (n d : nat) (t : T2 F) :
  has_shape2 n d t -> shape2 t = replicate n d.
Proof.
  intros [<- Hall]. unfold shape2.
  induction Hall as [|p t Hp _ IH]; simpl; [reflexivity |].
  rewrite Hp, IH. reflexivity.
Qed.

Lemma stack_same_shape (n d : nat) (ts : list (T2 F)) :
  ts <> [] -> Forall (has_shape2 n d) ts -> stack ts = Ok ts.
Proof.
  intros Hne Hall. destruct Hall as [|t rest Ht Hrest]; [congruence |].
  unfold stack.
  replace (forallb _ rest) with true; [reflexivity |].
  symmetry. apply forallb_forall. intros u Hu. apply bool_decide_eq_true.
  rewrite (shape2_replicate n d t) by exact Ht.
  apply (shape2_replicate n d). rewrite List.Forall_forall in Hrest.
  apply Hrest. exact Hu.
Qed.

Lemma same_dim_shape2 (c d : nat) (w : T2 F) :
  has_shape2 c d w -> same_dim w = true.
Proof.
  intros [_ Hall]. destruct Hall as [|p rest Hp Hrest]; [reflexivity |].
  simpl. apply forallb_forall. intros q Hq. apply bool_decide_eq_true.
  rewrite List.Forall_forall in Hrest. rewrite Hp. apply Hrest. exact Hq.
Qed.

Lemma shift_row_shape (c d : nat) (w : T2 F) (p : list F) :
  has_shape2 (S c) d w -> length p = d ->
  has_shape2 (S c) d (drop 1 w ++ [p]).
Proof.
  intros [Hlen Hall] Hp. split.
  - rewrite length_app, length_drop, Hlen. simpl. lia.
  - apply Forall_app. split; [apply Forall_drop; exact Hall |].
    constructor; [exact Hp | constructor].
Qed.

Lemma shift_window_shape (n c d : nat) (window : T3 F) (next : T2 F) :
  has_shape3 n (S c) d window -> has_shape2 n d next ->
  has_shape3 n (S c) d (shift_window window next).
Proof.
  intros [Hlen Hall] [Hlen' Hall']. unfold shift_window. split.
  - rewrite length_zip_with; lia.
  - clear Hlen Hlen'. revert next Hall'.
    induction Hall as [|w window Hw _ IH]; intros next Hnext;
      [constructor |].
    destruct Hnext as [|p next Hp Hnext]; [constructor |].
    simpl. constructor; [apply shift_row_shape; assumption |].
    apply IH. exact Hnext.
Qed.

(** The [torch.cat] of [rollout] succeeds on a window and a prediction of
    matching shape, and gives the shifted window. *)
Lemma cat_dim1_shift (n c d : nat) (window : T3 F) (next : T2 F) :
  has_shape3 n (S c) d window -> has_shape2 n d next ->
  cat_dim1 (map (drop 1) window) (map (fun p => [p]) next)
  = Ok (shift_window window next).
Proof.
  intros Hw Hn. unfold cat_dim1.
  rewrite !length_map.
  destruct (decide (length window = length next)) as [_|Hne].
  2: { destruct Hw as [Hw _], Hn as [Hn _]. congruence. }
  rewrite zip_with_fmap_l, zip_with_fmap_r. fold (shift_window window next).
  replace (forallb same_dim _) with true; [reflexivity |].
  symmetry. apply forallb_forall. intros w Hin.
  destruct (shift_window_shape n c d window next Hw Hn) as [_ Hall].
  rewrite List.Forall_forall in Hall.
  apply (same_dim_shape2 (S c) d). apply Hall. exact Hin.
Qed.

Lemma take_window_id (n c d : nat) (t : T3 F) :
  has_shape3 n c d t -> map (take c) t = t.
Proof.
  intros [_ Hall]. induction Hall as [|w t Hw _ IH]; simpl; [reflexivity |].
  rewrite IH. f_equal. apply take_ge. destruct Hw as [-> _]. reflexivity.
Qed.

End TensorLemmas.

(** ** rollout *)

Section Rollout.
Context {F : Type} `{Float F}.
Import Torch TrainBaseline.

Variables (simulator : Simulator (F := F)) (position : T3 F).
Variables (types : list Z) (edges : list (list Z)) (n d : nat).

#[local] Abbreviation C := INPUT_SEQUENCE_LENGTH.
#[local] Abbreviation predict w :=
  (predict_positions simulator w types edges).
#[local] Abbreviation loop k :=
  (rollout_loop simulator position types edges k).

Hypothesis position_shape : has_shape3 n C d position.
Hypothesis predict_shape :
  forall window, has_shape3 n C d window -> has_shape2 n d (predict window).

Lemma initial_window : map (take C) position = position.
Proof. apply (take_window_id n C d). exact position_shape. Qed.

(** One more round of the loop from a state of the right shape. *)
Lemma rollout_loop_S (k : nat) (window : T3 F) (predictions : list (T2 F)) :
  loop k = Ok (window, predictions) ->
  has_shape3 n C d window ->
  loop (S k)
  = Ok (shift_window window (predict window),
        predictions ++ [predict window]).
Proof.
  intros Hrun Hshape. unfold rollout_loop in *.
  rewrite for_in_seq_S, Hrun, bind_Ok. unfold rollout_step.
  rewrite (cat_dim1_shift n 5 d) by auto. reflexivity.
Qed.

(** The loop invariant: after [k] rounds the window has its initial shape
    and [k] predictions of shape [(n, d)] were collected. *)
Lemma rollout_loop_invariant (k : nat) :
  exists window predictions,
    loop k = Ok (window, predictions)
    /\ has_shape3 n C d window
    /\ length predictions = k
    /\ Forall (has_shape2 n d) predictions.
Proof.
  induction k as [|k (window & predictions & Hrun & Hshape & Hlen & Hall)].
  - exists position, []. unfold rollout_loop. rewrite initial_window.
    repeat split; auto; apply position_shape.
  - eexists _, _. split; [apply (rollout_loop_S k _ _ Hrun Hshape) |].
    split; [apply (shift_window_shape n 5 d); auto |].
    split; [rewrite length_app; simpl; lia |].
    apply Forall_app. split; [exact Hall |]. constructor; auto.
Qed.

(** Predictions are only ever appended. *)
Lemma rollout_loop_prefix (j k : nat) w_j p_j w_k p_k :
  (j <= k)%nat ->
  loop j = Ok (w_j, p_j) -> loop k = Ok (w_k, p_k) ->
  exists more, p_k = p_j ++ more.
Proof.
  intros Hjk Hj. revert w_k p_k. induction Hjk as [|k Hjk IH]; intros w_k p_k Hk.
  - exists []. rewrite app_nil_r. congruence.
  - destruct (rollout_loop_invariant k) as (w & p & Hrun & Hshape & _).
    destruct (IH w p Hrun) as [more ->].
    rewrite (rollout_loop_S k _ _ Hrun Hshape) in Hk.
    injection Hk as _ <-. exists (more ++ [predict w]).
    rewrite app_assoc. reflexivity.
Qed.

(** C2 (amended): for a window of C = 6 positions per particle and every
    number of steps S >= 1, [rollout] returns a [predicted_rollout] of
    exactly S entries, one position per particle each; before each of the S
    calls of the predictor the window has exactly 6 entries per particle,
    the call's prediction is the next entry of [predicted_rollout], and the
    next window is the current one without its oldest entry and with that
    prediction appended.  (The simulator returns one position per particle
    and the label has that shape.) *)
Theorem rollout_steps_and_window (label : T2 F) (nsteps : Z) :
  has_shape2 n d label ->
  1 <= nsteps ->
  exists out loss,
    rollout simulator position label types edges nsteps = Ok (out, loss)
    /\ length (predicted_rollout out) = Z.to_nat nsteps
    /\ Forall (has_shape2 n d) (predicted_rollout out)
    /\ forall k, (k < Z.to_nat nsteps)%nat ->
         exists window predictions,
           loop k = Ok (window, predictions)
           /\ has_shape3 n C d window
           /\ predicted_rollout out !! k = Some (predict window)
           /\ loop (S k)
              = Ok (shift_window window (predict window),
                    predictions ++ [predict window]).
Proof.
  intros Hlabel Hsteps.
  destruct (rollout_loop_invariant (Z.to_nat nsteps))
    as (w_end & preds & Hrun & _ & Hlen & Hall).
  assert (preds <> []) as Hne by (intros ->; simpl in Hlen; lia).
  destruct (lookup_lt_is_Some_2 preds (Nat.pred (length preds)))
    as [last_prediction Hlast]; [lia |].
  assert (has_shape2 n d last_prediction) as Hshape
    by (eapply (proj1 (Forall_lookup _ _) Hall); exact Hlast).
  eexists _, _. split; [| split; [| split]].
  - unfold rollout. unfold rollout_loop in Hrun. rewrite Hrun, bind_Ok.
    rewrite (stack_same_shape n d) by assumption. rewrite bind_Ok.
    rewrite (getitem_Some _ _ _ Hlast), bind_Ok.
    rewrite (sub2_same_shape n d) by assumption. reflexivity.
  - exact Hlen.
  - exact Hall.
  - intros k Hk. cbn [predicted_rollout].
    destruct (rollout_loop_invariant k) as (w & p & Hk_run & Hk_shape & Hk_len & _).
    exists w, p. pose proof (rollout_loop_S k w p Hk_run Hk_shape) as Hnext.
    split; [exact Hk_run | split; [exact Hk_shape | split; [| exact Hnext]]].
    destruct (rollout_loop_prefix (S k) (Z.to_nat nsteps) _ _ _ _
                ltac:(lia) Hnext Hrun) as [more ->].
    rewrite <- app_assoc. apply list_lookup_middle. symmetry. exact Hk_len.
Qed.

End Rollout.

Section RolloutExamples.
Import Torch TrainBaseline.

Lemma drift_simulator_shape (types : list Z) (edges : list (list Z))
    (n c d : nat) (window : list (list (list Z))) :
  has_shape3 n (S c) d window ->
  has_shape2 n d (predict_positions drift_simulator window types edges).
Proof.
  intros [Hlen Hall]. simpl. split; [rewrite length_map; exact Hlen |].
  apply Forall_fmap. eapply List.Forall_impl; [| exact Hall].
  intros w [Hw Hrows]. simpl. rewrite length_map.
  destruct (exists_last (l := w)) as (front & p & ->);
    [intros ->; discriminate Hw |].
  rewrite last_last. rewrite Forall_app in Hrows.
  destruct Hrows as [_ Hp]. inversion Hp; assumption.
Qed.

(** C2, as stated, fails at S = 0: [torch.stack] of no prediction raises,
    so no rollout (of 0 positions) is returned. *)
Lemma rollout_zero_steps_raises :
  ~ (exists out loss,
        rollout drift_simulator example_position example_label
                example_types [] 0 = Ok (out, loss)
        /\ length (predicted_rollout out) = Z.to_nat 0).
Proof. intros (out & loss & Hrun & _). vm_compute in Hrun. discriminate Hrun. Qed.

Lemma rollout_steps_and_window_witness :
  has_shape2 2 1 example_label /\ 1 <= 3 /\
  exists out loss,
    rollout drift_simulator example_position example_label
            example_types [] 3 = Ok (out, loss)
    /\ length (predicted_rollout out) = 3%nat.
Proof.
  assert (has_shape2 2 1 example_label) as Hlabel
    by (split; [reflexivity | repeat constructor]).
  split; [exact Hlabel | split; [lia |]].
  destruct (rollout_steps_and_window drift_simulator example_position
              example_types [] 2 1) with (label := example_label) (nsteps := 3)
    as (out & loss & Hrun & Hlen & _).
  - split; [reflexivity | repeat constructor].
  - apply drift_simulator_shape.
  - exact Hlabel.
  - lia.
  - exists out, loss. split; [exact Hrun | exact Hlen].
Defined.

(** C1 (code bug): one rollout step on two particles, the first kinematic
    and prescribed to stay at 0.  Its entry in [predicted_rollout] is 1, the
    simulator's prediction, and the window carries that prediction on. *)
Theorem rollout_kinematic_gets_prediction :
  rollout drift_simulator example_position example_label example_types [] 1
  = Ok ({| initial_positions :=
             [ [[0]; [0]]; [[0]; [1]]; [[0]; [2]];
               [[0]; [3]]; [[0]; [4]]; [[0]; [5]] ];
           predicted_rollout := [ [[1]; [6]] ];
           ground_truth_rollout := [[0]; [6]];
           particle_types := [KINEMATIC_PARTICLE_ID; 0] |},
        [[1]; [0]])
  /\ rollout_loop drift_simulator example_position example_types [] 1
     = Ok ([ [[0]; [0]; [0]; [0]; [0]; [1]];
             [[1]; [2]; [3]; [4]; [5]; [6]] ],
           [ [[1]; [6]] ]).
Proof. split; reflexivity. Qed.

End RolloutExamples.

(** ** train: noise masking and loss *)

Section TrainBatch.
Context {F : Type} `{Float F}.
Import Torch TrainBaseline.

Lemma map_zip_with {A B C D} (g : C -> D) (f : A -> B -> C)
    (a : list A) (b : list B) :
  map g (zip_with f a b) = zip_with (fun x y => g (f x y)) a b.
Proof.
  revert b. induction a as [|x a IH]; intros [|y b]; simpl;
    try reflexivity. f_equal. apply IH.
Qed.

Lemma mask_sum_count (types : list Z) :
  foldr Z.add 0 (map Z.b2z (non_kinematic_mask_of types))
  = count_non_kinematic types.
Proof.
  unfold count_non_kinematic, non_kinematic_mask_of, is_kinematic.
  induction types as [|t types IH]; [reflexivity |].
  simpl. rewrite IH.
  destruct (t =? KINEMATIC_PARTICLE_ID); simpl length; simpl Z.b2z; lia.
Qed.

Lemma sum_contributions (types : list Z) (errors : T1 F) :
  (forall x, f_add f_zero x = x) ->
  sum1 (loss_contributions types errors)
  = sum1 (non_kinematic_errors types errors).
Proof.
  intros Hadd0. unfold loss_contributions, non_kinematic_errors, sum1.
  revert errors. induction types as [|t types IH]; intros [|e errors];
    try reflexivity.
  simpl. destruct (is_kinematic t); simpl.
  - rewrite Hadd0. apply IH.
  - f_equal. apply IH.
Qed.

Lemma masked_entries_zero (finite is_zero : F -> Prop) (w : T2 F) :
  (forall x, finite x -> is_zero (f_mul x (f_of_Z 0))) ->
  Forall (Forall finite) w ->
  Forall2 (Forall2 (fun _ y => is_zero y)) w
          (map (map (fun x => f_mul x (f_of_bool false))) w).
Proof.
  intros Hmul0 Hw. induction Hw as [|row w Hrow _ IH]; simpl;
    constructor; [| exact IH].
  induction Hrow as [|x row Hx _ IHrow]; simpl; constructor;
    [apply Hmul0; exact Hx | exact IHrow].
Qed.

(** C5: in a batch with one type per particle, the noise handed to the
    simulator is the sampled noise times the non-kinematic mask: the row of
    every kinematic particle keeps its shape and is zero at every time
    offset and in every dimension, whatever finite noise was sampled (so
    for every requested noise std).  Scalars: a finite value times the mask
    value 0 is zero. *)
Theorem kinematic_noise_is_zero (finite is_zero : F -> Prop)
    (sampled_noise : T3 F) (particle_type : list Z) :
  (forall x, finite x -> is_zero (f_mul x (f_of_Z 0))) ->
  Forall (Forall (Forall finite)) sampled_noise ->
  length particle_type = length sampled_noise ->
  exists noise,
    mask_noise sampled_noise particle_type = Ok noise
    /\ length noise = length sampled_noise
    /\ (forall i w,
          particle_type !! i = Some KINEMATIC_PARTICLE_ID ->
          sampled_noise !! i = Some w ->
          exists zeros,
            noise !! i = Some zeros
            /\ Forall2 (Forall2 (fun _ y => is_zero y)) w zeros)
    /\ (forall simulator position edge_index labels,
          train_batch simulator sampled_noise position particle_type
                      edge_index labels
          = (let '(pred_acc, target_acc) :=
               predict_accelerations simulator labels noise position
                                     particle_type edge_index in
             loss ← masked_loss pred_acc target_acc particle_type;
             Ok (noise, loss))).
Proof.
  intros Hmul0 Hfinite Hlen. unfold train_batch, mask_noise, imul_mask.
  destruct (decide _) as [_|Hne].
  2: { unfold non_kinematic_mask_of in Hne. rewrite length_map in Hne.
       contradiction. }
  eexists. split; [reflexivity |]. split; [| split].
  - unfold non_kinematic_mask_of. rewrite length_zip_with, length_map. lia.
  - intros i w Hkin Hw. eexists. split.
    + rewrite lookup_zip_with. unfold non_kinematic_mask_of.
      rewrite list_lookup_fmap, Hkin, Hw. reflexivity.
    + apply (masked_entries_zero finite is_zero); [exact Hmul0 |].
      eapply (proj1 (Forall_lookup _ _) Hfinite). exact Hw.
  - intros. reflexivity.
Qed.

(** C6: for predicted and target accelerations of one shape and one type
    per particle, the loss is the sum of the per-particle contributions
    divided by the number of non-kinematic particles; a kinematic particle
    contributes exactly zero, every other one its squared error summed over
    the dimensions.  So the numerator is the sum of the errors of the
    non-kinematic particles (scalars: adding to zero changes nothing). *)
Theorem masked_loss_is_mean_over_non_kinematic (pred_acc target_acc : T2 F)
    (particle_type : list Z) (n d : nat) :
  has_shape2 n d pred_acc ->
  has_shape2 n d target_acc ->
  length particle_type = n ->
  let errors := particle_errors pred_acc target_acc in
  masked_loss pred_acc target_acc particle_type
  = Ok (f_div (sum1 (loss_contributions particle_type errors))
              (f_of_Z (count_non_kinematic particle_type)))
  /\ (forall i,
        particle_type !! i = Some KINEMATIC_PARTICLE_ID ->
        (i < n)%nat ->
        loss_contributions particle_type errors !! i = Some f_zero)
  /\ ((forall x, f_add f_zero x = x) ->
      sum1 (loss_contributions particle_type errors)
      = sum1 (non_kinematic_errors particle_type errors)).
Proof.
  intros Hpred Htarget Htypes errors.
  assert (length errors = n) as Herrors.
  { unfold errors, particle_errors. rewrite length_zip_with.
    destruct Hpred as [-> _], Htarget as [-> _]. lia. }
  split; [| split; [| apply sum_contributions]].
  - unfold masked_loss. rewrite (sub2_same_shape n d) by assumption.
    rewrite bind_Ok. unfold sum_last. rewrite map_zip_with, map_zip_with.
    fold (particle_errors pred_acc target_acc). fold errors.
    unfold where_or_zero.
    rewrite (broadcast_same_length _
               (fun (b : bool) x => if b then x else f_zero)).
    + rewrite bind_Ok, mask_sum_count. do 3 f_equal.
      unfold non_kinematic_mask_of, loss_contributions.
      rewrite zip_with_fmap_l. apply zip_with_ext; [| reflexivity..].
      intros t e. unfold is_kinematic.
      destruct (t =? KINEMATIC_PARTICLE_ID); reflexivity.
    + unfold non_kinematic_mask_of. rewrite length_map. lia.
    + apply List.Forall_forall. intros; reflexivity.
  - intros i Hkin Hi. unfold loss_contributions.
    destruct (lookup_lt_is_Some_2 errors i) as [e He]; [lia |].
    rewrite lookup_zip_with, Hkin, He. reflexivity.
Qed.

(** C7: the normalization statistics given to the simulator keep the data
    mean of the metadata, and every stored std is the square root of the
    data std squared plus the noise std squared, with the acceleration
    noise for the acceleration and the velocity noise for the velocity. *)
Theorem normalization_stats_in_quadrature (metadata : Metadata)
    (acc_noise_std vel_noise_std : F) :
  let stats :=
    normalization_stats (_get_simulator metadata acc_noise_std vel_noise_std)
  in
  mean (acceleration stats) = acc_mean metadata
  /\ mean (velocity stats) = vel_mean metadata
  /\ length (std (acceleration stats)) = length (acc_std metadata)
  /\ length (std (velocity stats)) = length (vel_std metadata)
  /\ (forall i,
        std (acceleration stats) !! i
        = (fun s => f_sqrt (f_add (f_mul s s)
                                  (f_mul acc_noise_std acc_noise_std)))
            <$> acc_std metadata !! i)
  /\ (forall i,
        std (velocity stats) !! i
        = (fun s => f_sqrt (f_add (f_mul s s)
                                  (f_mul vel_noise_std vel_noise_std)))
            <$> vel_std metadata !! i).
Proof.
  simpl. unfold noisy_std. rewrite !length_map.
  repeat split; try reflexivity; intros i;
    rewrite !list_lookup_fmap; destruct (_ !! i); reflexivity.
Qed.

End TrainBatch.

Lemma kinematic_noise_is_zero_witness :
  exists noise,
    TrainBaseline.mask_noise [[[3; -4]; [5; 6]]; [[7; 8]; [9; 1]]]
                             example_types = Ok noise
    /\ exists zeros,
         noise !! 0%nat = Some zeros
         /\ Forall2 (Forall2 (fun _ y => y = 0)) [[3; -4]; [5; 6]] zeros.
Proof.
  destruct (kinematic_noise_is_zero (F := Z) (fun _ => True) (fun y => y = 0)
              [[[3; -4]; [5; 6]]; [[7; 8]; [9; 1]]] example_types)
    as (noise & Hrun & _ & Hzero & _).
  - intros x _. simpl. lia.
  - repeat constructor.
  - reflexivity.
  - exists noise. split; [exact Hrun |].
    apply (Hzero 0%nat [[3; -4]; [5; 6]]); reflexivity.
Defined.

Lemma masked_loss_is_mean_over_non_kinematic_witness :
  TrainBaseline.masked_loss (F := Z) [[1; 2]; [3; 4]] [[0; 0]; [0; 0]]
                            example_types
  = Ok 25
  /\ Torch.sum1 (F := Z) [0; 25] = Torch.sum1 [25].
Proof.
  assert (has_shape2 (F := Z) 2 2 [[1; 2]; [3; 4]]) as Hpred
    by (split; [reflexivity | repeat constructor]).
  assert (has_shape2 (F := Z) 2 2 [[0; 0]; [0; 0]]) as Htarget
    by (split; [reflexivity | repeat constructor]).
  destruct (masked_loss_is_mean_over_non_kinematic (F := Z)
              [[1; 2]; [3; 4]] [[0; 0]; [0; 0]] example_types 2 2
              Hpred Htarget eq_refl) as (Hloss & _ & Hsum).
  split; [exact Hloss |]. apply Hsum. intros x. simpl. lia.
Defined.

(** ** train: checkpoint selection *)

Section Checkpoints.
Import TrainBaseline.













(** C9, as stated, fails: a model file without its train state is not an
    error, [resume] returns. *)
Lemma resume_missing_pair_returns :
  ~ (forall fs saved_step flags flags',
        model_file flags <> None ->
        resolve_latest fs flags = Ok flags' ->
        checkpoint_pair_exists fs flags' = false ->
        raises (resume fs saved_step flags)).
Proof.
  intros Hall.
  destruct (Hall unpaired_fs (fun _ => 5) unpaired_flags unpaired_flags)
    as [e He]; try reflexivity; try discriminate.
Qed.

(** C9 (amended): when a checkpoint is requested and the resolved model
    file and train-state file do not both exist, nothing is loaded: the
    condition is logged with both paths, followed by "Starting training
    from scratch.", and training goes on from step 0. *)
Theorem resume_missing_pair_starts_from_scratch (fs : list string)
    (saved_step : string -> Z) (flags flags' : Flags) :
  model_file flags <> None ->
  resolve_latest fs flags = Ok flags' ->
  checkpoint_pair_exists fs flags' = false ->
  resume fs saved_step flags
  = Ok {| flags_after := flags';
          loaded := None;
          step := 0;
          logged := [not_found_message flags';
                     "Starting training from scratch."] |}.
Proof.
  intros Hrequested Hresolve Hmissing. unfold resume.
  destruct (model_file flags) as [name|] eqn:Hname; [| congruence].
  rewrite Hresolve, bind_Ok.
  unfold checkpoint_pair_exists in Hmissing. rewrite Hmissing. reflexivity.
Qed.

Lemma resume_missing_pair_starts_from_scratch_witness :
  resume unpaired_fs (fun _ => 5) unpaired_flags
  = Ok {| flags_after := unpaired_flags;
          loaded := None;
          step := 0;
          logged :=
            ["Specified model_file models/exp-model-5.pt and train_state_file models/exp-train-state-5.pt not found.";
             "Starting training from scratch."] |}.
Proof.
  assert (model_file unpaired_flags <> None) as Hrequested by discriminate.
  exact (resume_missing_pair_starts_from_scratch unpaired_fs (fun _ => 5)
           unpaired_flags unpaired_flags Hrequested eq_refl eq_refl).
Defined.

End Checkpoints.

(** ** build_mlp: outcome and module names; Encoder and Decoder *)

Section BuildMlpMore.
Import Gns GnsNet.
Variable allocates : list Z -> bool.

(** One round on sizes and activations that are there. *)
Lemma add_layer_outcome (layer_sizes : list Z) (act : list module_class)
    (i : nat) (mlp : list (string * module)) (n_in n_out : Z)
    (cls : module_class) :
  layer_sizes !! i = Some n_in ->
  layer_sizes !! (i + 1)%nat = Some n_out ->
  act !! i = Some cls ->
  add_layer allocates layer_sizes act i mlp
  = if linear_accepted allocates (n_in, n_out)
    then Ok (mlp ++ [(layer_name i, Linear n_in n_out);
                     (act_name i, Activation cls)])
    else Raise RuntimeError.
Proof.
  intros Hin Hout Hcls. unfold add_layer.
  rewrite (getitem_Some _ _ _ Hin), (getitem_Some _ _ _ Hout), !bind_Ok.
  rewrite nn_Linear_outcome.
  destruct (linear_accepted allocates (n_in, n_out)).
  - rewrite bind_Ok, (getitem_Some _ _ _ Hcls), bind_Ok.
    unfold add_module. rewrite <- app_assoc. reflexivity.
  - reflexivity.
Qed.

(** The rounds stop at the first linear layer that is refused; the names
    registered by the rounds that ran are [module_names]. *)
Lemma add_layers_outcome (layer_sizes : list Z) (act : list module_class)
    (k : nat) :
  (k <= length (layer_pairs layer_sizes))%nat ->
  (k <= length act)%nat ->
  if forallb (linear_accepted allocates) (take k (layer_pairs layer_sizes))
  then exists mlp,
         for_in (seq 0 k) (add_layer allocates layer_sizes act) [] = Ok mlp
         /\ mlp.*1 = module_names k
  else for_in (seq 0 k) (add_layer allocates layer_sizes act) []
       = Raise RuntimeError.
Proof.
  intros Hsz Hact. induction k as [|k IH].
  - exists []. split; reflexivity.
  - destruct (lookup_lt_is_Some_2 (layer_pairs layer_sizes) k)
      as [[n_in n_out] Hpair]; [lia |].
    destruct (lookup_lt_is_Some_2 act k) as [cls Hcls]; [lia |].
    pose proof Hpair as Hsizes. unfold layer_pairs in Hsizes.
    apply lookup_zip_Some in Hsizes as [Hin Hout].
    rewrite lookup_drop in Hout.
    replace (1 + k)%nat with (k + 1)%nat in Hout by lia.
    rewrite (take_S_r _ _ _ Hpair), forallb_app. cbn [forallb].
    rewrite andb_true_r, for_in_seq_S.
    destruct (forallb (linear_accepted allocates)
                (take k (layer_pairs layer_sizes))) eqn:Hprefix.
    + destruct IH as (mlp & -> & Hnames); [lia | lia |]. rewrite bind_Ok.
      rewrite (add_layer_outcome _ _ k mlp n_in n_out cls) by assumption.
      simpl andb. destruct (linear_accepted allocates (n_in, n_out));
        [| reflexivity].
      eexists. split; [reflexivity |].
      rewrite fmap_app, Hnames. unfold module_names.
      rewrite (seq_S k), map_app, concat_app. reflexivity.
    + rewrite IH by lia. reflexivity.
Qed.

Lemma layer_sizes_length (input_size : Z) (hidden : list Z)
    (output_size : option Z) :
  length (layer_sizes_of input_size hidden output_size)
  = (1 + length hidden + (if truthy output_size then 1 else 0))%nat.
Proof.
  unfold layer_sizes_of. destruct (truthy output_size); simpl;
    rewrite ?length_app; simpl; lia.
Qed.

(** X1: the three outcomes of [build_mlp].  With a single size (no hidden
    layer and no output size, or 0) it raises IndexError; otherwise it
    raises RuntimeError when [nn.Linear] refuses a layer (a negative size,
    or a weight or bias that cannot be allocated), and returns two modules
    per consecutive pair of sizes when every layer is accepted. *)
Theorem build_mlp_outcome (input_size : Z) (hidden : list Z)
    (output_size : option Z)
    (output_activation activation : option module_class) :
  let layer_sizes := layer_sizes_of input_size hidden output_size in
  let run :=
    build_mlp allocates input_size hidden output_size
              output_activation activation in
  (length layer_sizes = 1%nat -> run = Raise IndexError)
  /\ ((2 <= length layer_sizes)%nat ->
      layers_accepted allocates layer_sizes = false ->
      run = Raise RuntimeError)
  /\ ((2 <= length layer_sizes)%nat ->
      layers_accepted allocates layer_sizes = true ->
      exists mlp,
        run = Ok mlp /\ length mlp = (2 * (length layer_sizes - 1))%nat).
Proof.
  intros layer_sizes run. subst run. unfold build_mlp. fold layer_sizes.
  split; [| split].
  - intros ->. reflexivity.
  - intros Hlen Hrefused.
    destruct (length layer_sizes) as [|[|n]] eqn:Hn; [lia | lia |].
    replace (S (S n) - 1)%nat with (S n) by lia.
    rewrite setitem_last_replicate, bind_Ok.
    pose proof (add_layers_outcome layer_sizes
                  (<[n := default Identity output_activation]>
                     (replicate (S n) (default ReLU activation))) (S n))
      as Hrun.
    pose proof (layer_pairs_length layer_sizes) as Hpairs.
    rewrite take_ge in Hrun by lia.
    unfold layers_accepted in Hrefused. rewrite Hrefused in Hrun.
    apply Hrun; [lia |].
    rewrite length_insert, length_replicate. lia.
  - intros Hlen Haccepted.
    destruct (build_mlp_run allocates input_size hidden output_size
                output_activation activation Hlen Haccepted)
      as (mlp & Hrun & Hmlp & _).
    exists mlp. split; [exact Hrun | exact Hmlp].
Qed.

Lemma layer_name_inj (i j : nat) : layer_name i = layer_name j -> i = j.
Proof.
  unfold layer_name. simpl. intros [= Heq].
  exact (pretty_nat_inj _ _ Heq).
Qed.

Lemma act_name_inj (i j : nat) : act_name i = act_name j -> i = j.
Proof.
  unfold act_name. simpl. intros [= Heq].
  exact (pretty_nat_inj _ _ Heq).
Qed.

Lemma module_names_elem (k : nat) (name : string) :
  name ∈ module_names k ->
  exists i, (i < k)%nat /\ (name = layer_name i \/ name = act_name i).
Proof.
  unfold module_names. intros Hin.
  apply list_elem_of_In, in_concat in Hin as (block & Hblock & Hname).
  apply in_map_iff in Hblock as (i & <- & Hi). apply in_seq in Hi.
  exists i. split; [lia |].
  destruct Hname as [<- | [<- | []]]; [left | right]; reflexivity.
Qed.

Lemma module_names_NoDup (k : nat) : NoDup (module_names k).
Proof.
  induction k as [|k IH]; [constructor |].
  unfold module_names. rewrite seq_S, map_app, concat_app.
  fold (module_names k).
  change (concat (map _ [(0 + k)%nat])) with [layer_name k; act_name k].
  apply list.NoDup_app. split; [exact IH | split].
  - intros name Hold Hnew.
    apply module_names_elem in Hold as (i & Hi & Hname).
    apply list_elem_of_In in Hnew. simpl in Hnew.
    destruct Hnew as [<- | [<- | []]], Hname as [Hname | Hname].
    + apply layer_name_inj in Hname. lia.
    + discriminate Hname.
    + discriminate Hname.
    + apply act_name_inj in Hname. lia.
  - apply list.NoDup_cons.
    split; [| apply list.NoDup_singleton].
    intros Hin. apply list_elem_of_In in Hin. simpl in Hin.
    destruct Hin as [Heq | []]. discriminate Heq.
Qed.

(** X2: whenever [build_mlp] returns, the names it registered are
    [NN-0, Act-0, NN-1, Act-1, ...] and pairwise distinct: no [add_module]
    call replaces a module registered before. *)
Theorem build_mlp_names_distinct (input_size : Z) (hidden : list Z)
    (output_size : option Z)
    (output_activation activation : option module_class)
    (mlp : list (string * module)) :
  build_mlp allocates input_size hidden output_size
            output_activation activation
  = Ok mlp ->
  mlp.*1
  = module_names
      (length (layer_sizes_of input_size hidden output_size) - 1)
  /\ NoDup (mlp.*1).
Proof.
  intros Hrun.
  assert (mlp.*1 = module_names
            (length (layer_sizes_of input_size hidden output_size) - 1))
    as Hnames; [| split; [exact Hnames | rewrite Hnames;
                                          apply module_names_NoDup]].
  unfold build_mlp in Hrun.
  set (layer_sizes := layer_sizes_of input_size hidden output_size) in *.
  destruct (length layer_sizes) as [|[|n]] eqn:Hn.
  - pose proof (layer_sizes_length input_size hidden output_size). 
    fold layer_sizes in H. lia.
  - discriminate Hrun.
  - replace (S (S n) - 1)%nat with (S n) in * by lia.
    rewrite setitem_last_replicate, bind_Ok in Hrun.
    pose proof (add_layers_outcome layer_sizes
                  (<[n := default Identity output_activation]>
                     (replicate (S n) (default ReLU activation))) (S n))
      as Hall.
    pose proof (layer_pairs_length layer_sizes) as Hpairs.
    destruct (forallb (linear_accepted allocates)
                (take (S n) (layer_pairs layer_sizes))).
    + destruct Hall as (mlp' & Hrun' & Hnames');
        [lia | rewrite length_insert, length_replicate; lia |].
      rewrite Hrun' in Hrun. injection Hrun as <-. exact Hnames'.
    + rewrite Hall in Hrun;
        [discriminate Hrun | lia
         | rewrite length_insert, length_replicate; lia].
Qed.

Lemma hidden_layers_nonneg (nmlp_layers mlp_hidden_dim : Z) :
  0 <= mlp_hidden_dim ->
  Forall (fun z => 0 <= z) (hidden_layers nmlp_layers mlp_hidden_dim).
Proof. intros Hdim. apply Forall_replicate. exact Hdim. Qed.

Lemma build_mlp_with_output (input_size : Z) (hidden : list Z)
    (output_size : Z) :
  0 <= input_size ->
  Forall (fun z => 0 <= z) hidden ->
  0 < output_size ->
  Forall (fun shape => allocates shape = true)
         (parameter_shapes ([input_size] ++ hidden ++ [output_size])) ->
  exists mlp,
    build_mlp allocates input_size hidden (Some output_size) None None
    = Ok mlp
    /\ mlp_of_sizes ([input_size] ++ hidden ++ [output_size])
                    Identity ReLU mlp.
Proof.
  intros Hin Hhid Hout Hfit.
  pose proof (build_mlp_run allocates input_size hidden (Some output_size)
                            None None) as Hrun.
  assert (layer_sizes_of input_size hidden (Some output_size)
          = [input_size] ++ hidden ++ [output_size]) as Hsizes.
  { unfold layer_sizes_of, truthy.
    replace (output_size =? 0) with false by (symmetry; apply Z.eqb_neq; lia).
    reflexivity. }
  rewrite Hsizes in Hrun. apply Hrun.
  - simpl. rewrite length_app. simpl. lia.
  - apply layers_accepted_intro; [| exact Hfit].
    simpl. constructor; [exact Hin |]. apply Forall_app. split; [exact Hhid |].
    constructor; [lia | constructor].
Qed.

(** The bias of the last layer has the shape of a [LayerNorm] parameter of
    the output width. *)
Lemma output_bias_shape (front : list Z) (n_in n_out : Z) :
  In [n_out] (parameter_shapes (front ++ [n_in; n_out])).
Proof.
  unfold parameter_shapes. apply in_flat_map. exists (n_in, n_out).
  split; [| simpl; auto].
  apply list_elem_of_In, list_elem_of_lookup. exists (length front).
  apply layer_pairs_lookup.
  - rewrite lookup_app_r, Nat.sub_diag by lia. reflexivity.
  - rewrite lookup_app_r by lia.
    replace (length front + 1 - length front)%nat with 1%nat by lia.
    reflexivity.
Qed.

Lemma output_bias_allocated (input_size : Z) (hidden : list Z)
    (output_size : Z) :
  Forall (fun shape => allocates shape = true)
         (parameter_shapes ([input_size] ++ hidden ++ [output_size])) ->
  allocates [output_size] = true.
Proof.
  intros Hfit. rewrite List.Forall_forall in Hfit. apply Hfit.
  destruct (exists_last (l := input_size :: hidden)) as (front & n_in & Heq);
    [discriminate |].
  change ([input_size] ++ hidden ++ [output_size])
    with ((input_size :: hidden) ++ [output_size]).
  rewrite Heq, <- app_assoc. apply output_bias_shape.
Qed.

(** X3: the decoder is [nmlp_layers] hidden layers of width
    [mlp_hidden_dim] (none when [nmlp_layers <= 0]) and one linear layer to
    [nnode_out], ReLU after every layer but the last, and the identity (no
    output activation, no normalisation) after the last; this for sizes
    that are not negative and parameters that the machine allocates. *)
Theorem Decoder_layers (nnode_in nnode_out nmlp_layers mlp_hidden_dim : Z) :
  let sizes :=
    [nnode_in] ++ replicate (Z.to_nat nmlp_layers) mlp_hidden_dim
    ++ [nnode_out] in
  0 <= nnode_in ->
  0 <= mlp_hidden_dim ->
  0 < nnode_out ->
  Forall (fun shape => allocates shape = true) (parameter_shapes sizes) ->
  exists mlp,
    Decoder_init allocates nnode_in nnode_out nmlp_layers mlp_hidden_dim
    = Ok mlp
    /\ mlp_of_sizes sizes Identity ReLU mlp
    /\ length mlp = (2 * (Z.to_nat nmlp_layers + 1))%nat.
Proof.
  intros sizes Hin Hdim Hout Hfit. unfold Decoder_init.
  destruct (build_mlp_with_output nnode_in
              (hidden_layers nmlp_layers mlp_hidden_dim) nnode_out)
    as (mlp & Hrun & Hmlp); auto using hidden_layers_nonneg.
  exists mlp. split; [exact Hrun | split; [exact Hmlp |]].
  destruct Hmlp as [-> _]. unfold hidden_layers. simpl.
  rewrite length_app, length_replicate. simpl. lia.
Qed.

(** X4: the encoder holds two networks of the same depth and hidden width,
    one from the node features and one from the edge features, each the
    chain of linear layers to its output width followed by a LayerNorm of
    that width; this for sizes that are not negative and parameters that
    the machine allocates. *)
Theorem Encoder_structure (nnode_in nnode_out nedge_in nedge_out
    nmlp_layers mlp_hidden_dim : Z) :
  let node_sizes :=
    [nnode_in] ++ replicate (Z.to_nat nmlp_layers) mlp_hidden_dim
    ++ [nnode_out] in
  let edge_sizes :=
    [nedge_in] ++ replicate (Z.to_nat nmlp_layers) mlp_hidden_dim
    ++ [nedge_out] in
  0 <= nnode_in -> 0 <= nedge_in -> 0 <= mlp_hidden_dim ->
  0 < nnode_out -> 0 < nedge_out ->
  Forall (fun shape => allocates shape = true)
         (parameter_shapes node_sizes ++ parameter_shapes edge_sizes) ->
  exists enc,
    Encoder_init allocates nnode_in nnode_out nedge_in nedge_out
                 nmlp_layers mlp_hidden_dim = Ok enc
    /\ mlp_of_sizes node_sizes Identity ReLU (mlp (node_fn enc))
    /\ layer_norm (node_fn enc) = nnode_out
    /\ mlp_of_sizes edge_sizes Identity ReLU (mlp (edge_fn enc))
    /\ layer_norm (edge_fn enc) = nedge_out.
Proof.
  intros node_sizes edge_sizes Hnode Hedge Hdim Hnode_out Hedge_out Hfit.
  apply Forall_app in Hfit as [Hnode_fit Hedge_fit].
  unfold Encoder_init, normed_mlp.
  destruct (build_mlp_with_output nnode_in
              (hidden_layers nmlp_layers mlp_hidden_dim) nnode_out)
    as (node & -> & Hnode_mlp); auto using hidden_layers_nonneg.
  destruct (build_mlp_with_output nedge_in
              (hidden_layers nmlp_layers mlp_hidden_dim) nedge_out)
    as (edge & -> & Hedge_mlp); auto using hidden_layers_nonneg.
  unfold nn_LayerNorm, torch_empty. cbn [forallb].
  rewrite (output_bias_allocated _ _ _ Hnode_fit).
  rewrite (output_bias_allocated _ _ _ Hedge_fit).
  rewrite (proj2 (Z.leb_le 0 nnode_out)) by lia.
  rewrite (proj2 (Z.leb_le 0 nedge_out)) by lia.
  eexists. split; [reflexivity |]. simpl. auto.
Qed.

End BuildMlpMore.

Section BuildMlpExamples.
Import Gns GnsNet.

Lemma build_mlp_outcome_witness :
  build_mlp (room_for 1000000) 4 [] None None None = Raise IndexError
  /\ build_mlp (room_for 1000000) 4 [8; -8] (Some 2) None None
     = Raise RuntimeError
  /\ build_mlp (room_for 1000000) 4 [2000; 2000] (Some 2) None None
     = Raise RuntimeError
  /\ exists mlp,
       build_mlp (room_for 1000000) 4 [8; 8] (Some 2) None None = Ok mlp
       /\ length mlp = 6%nat.
Proof.
  split; [| split; [| split]].
  - apply (build_mlp_outcome (room_for 1000000) 4 [] None None None).
    reflexivity.
  - apply (build_mlp_outcome (room_for 1000000) 4 [8; -8] (Some 2) None None);
      [simpl; lia | reflexivity].
  - apply (build_mlp_outcome (room_for 1000000) 4 [2000; 2000] (Some 2)
             None None); [simpl; lia | reflexivity].
  - apply (build_mlp_outcome (room_for 1000000) 4 [8; 8] (Some 2) None None);
      [simpl; lia | reflexivity].
Defined.

Lemma build_mlp_names_distinct_witness :
  NoDup ["NN-0"; "Act-0"; "NN-1"; "Act-1"; "NN-2"; "Act-2"].
Proof.
  exact (proj2 (build_mlp_names_distinct (room_for 1000000) 4 [8; 8] (Some 2)
                  None None _ eq_refl)).
Defined.

Lemma Decoder_layers_witness :
  exists mlp,
    Decoder_init (room_for 1000000) 128 2 2 128 = Ok mlp
    /\ mlp_of_sizes [128; 128; 128; 2] Identity ReLU mlp
    /\ length mlp = 6%nat.
Proof.
  apply (Decoder_layers (room_for 1000000) 128 2 2 128);
    [lia | lia | lia | repeat constructor].
Defined.

Lemma Encoder_structure_witness :
  exists enc,
    Encoder_init (room_for 1000000) 30 128 3 128 2 128 = Ok enc
    /\ mlp_of_sizes [30; 128; 128; 128] Identity ReLU (mlp (node_fn enc))
    /\ layer_norm (node_fn enc) = 128
    /\ mlp_of_sizes [3; 128; 128; 128] Identity ReLU (mlp (edge_fn enc))
    /\ layer_norm (edge_fn enc) = 128.
Proof.
  apply (Encoder_structure (room_for 1000000) 30 128 3 128 2 128);
    [lia | lia | lia | lia | lia | repeat constructor].
Defined.

End BuildMlpExamples.

(** ** rollout: edge behaviour *)

Section RolloutMore.
Context {F : Type} `{Float F}.
Import Torch TrainBaseline.

(** X5: with a number of steps of 0 or less the loop body never runs and
    [torch.stack] of the empty prediction list raises, whatever the
    simulator, the window and the label. *)
Theorem rollout_without_steps_raises (simulator : Simulator (F := F))
    (position : T3 F) (label : T2 F) (types : list Z)
    (edges : list (list Z)) (nsteps : Z) :
  nsteps <= 0 ->
  rollout simulator position label types edges nsteps = Raise RuntimeError.
Proof.
  intros Hsteps. unfold rollout.
  replace (Z.to_nat nsteps) with 0%nat by lia. reflexivity.
Qed.

(** X6: only the first [INPUT_SEQUENCE_LENGTH] positions of every particle
    are read: a longer history gives the same result as its first six
    positions. *)
Theorem rollout_reads_first_positions (simulator : Simulator (F := F))
    (position : T3 F) (label : T2 F) (types : list Z)
    (edges : list (list Z)) (nsteps : Z) :
  rollout simulator position label types edges nsteps
  = rollout simulator (map (take INPUT_SEQUENCE_LENGTH) position)
            label types edges nsteps.
Proof.
  unfold rollout. rewrite map_map.
  replace (map (fun w => take INPUT_SEQUENCE_LENGTH
                           (take INPUT_SEQUENCE_LENGTH w)) position)
    with (map (take INPUT_SEQUENCE_LENGTH) position); [reflexivity |].
  apply map_ext. intros w. rewrite take_take. f_equal.
Qed.

(** X7: when the simulator returns a number of positions other than the
    number of particles, the first [torch.cat] raises and so does
    [rollout], for every number of steps >= 1. *)
Theorem rollout_particle_count_mismatch (simulator : Simulator (F := F))
    (position : T3 F) (label : T2 F) (types : list Z)
    (edges : list (list Z)) (nsteps : Z) :
  length (predict_positions simulator
            (map (take INPUT_SEQUENCE_LENGTH) position) types edges)
  <> length position ->
  1 <= nsteps ->
  rollout simulator position label types edges nsteps = Raise RuntimeError.
Proof.
  intros Hcount Hsteps. unfold rollout.
  destruct (Z.to_nat nsteps) as [|k] eqn:Hk; [lia |].
  cbn [seq for_in].
  assert (rollout_step simulator types edges 0
            (map (take INPUT_SEQUENCE_LENGTH) position, [])
          = Raise RuntimeError) as ->; [| reflexivity].
  unfold rollout_step, cat_dim1. rewrite !length_map.
  destruct (decide _) as [Heq | _]; [congruence | reflexivity].
Qed.

End RolloutMore.

Lemma rollout_without_steps_raises_witness :
  TrainBaseline.rollout drift_simulator example_position example_label
                        example_types [] (-3)
  = Raise RuntimeError.
Proof.
  apply (rollout_without_steps_raises (F := Z)). lia.
Defined.

Lemma rollout_particle_count_mismatch_witness :
  TrainBaseline.rollout
    {| TrainBaseline.predict_positions := fun _ _ _ => [[0]];
       TrainBaseline.predict_accelerations := fun p _ _ _ _ => (p, p) |}
    example_position example_label example_types [] 2
  = Raise RuntimeError.
Proof.
  apply (rollout_particle_count_mismatch (F := Z)).
  - simpl. lia.
  - lia.
Defined.

(** ** train: shapes of a batch *)

Section TrainBatchMore.
Context {F : Type} `{Float F}.
Import Torch TrainBaseline.

(** X8: the noise mask needs one type per particle or a single type.  With
    any other number of types the in-place product raises; a single type
    is broadcast to every particle. *)
Theorem mask_noise_type_count (sampled_noise : T3 F)
    (particle_type : list Z) :
  (length particle_type <> length sampled_noise ->
   length particle_type <> 1%nat ->
   mask_noise sampled_noise particle_type = Raise RuntimeError)
  /\ (forall t,
        particle_type = [t] ->
        mask_noise sampled_noise particle_type
        = Ok (map (map (map (fun x =>
                               f_mul x (f_of_bool (negb (is_kinematic t))))))
                  sampled_noise)).
Proof.
  unfold mask_noise, imul_mask, non_kinematic_mask_of. split.
  - intros Hcount Hone. rewrite length_map.
    destruct (decide _) as [Heq | _]; [contradiction |].
    destruct particle_type as [|t [|t' rest]]; simpl in *;
      try reflexivity; lia.
  - intros t ->. cbn [map length].
    destruct (decide _) as [Heq | _]; [| reflexivity].
    destruct sampled_noise as [|w [|w' rest]]; simpl in Heq; try lia.
    reflexivity.
Qed.

(** X9: the noise of a particle that is not kinematic passes through the
    mask unchanged.  Scalars: multiplying by the mask value 1 changes
    nothing. *)
Theorem non_kinematic_noise_is_kept (sampled_noise : T3 F)
    (particle_type : list Z) :
  (forall x, f_mul x (f_of_Z 1) = x) ->
  length particle_type = length sampled_noise ->
  exists noise,
    mask_noise sampled_noise particle_type = Ok noise
    /\ forall i t,
         particle_type !! i = Some t ->
         t <> KINEMATIC_PARTICLE_ID ->
         noise !! i = sampled_noise !! i.
Proof.
  intros Hmul1 Hlen. unfold mask_noise, imul_mask.
  destruct (decide _) as [_|Hne].
  2: { unfold non_kinematic_mask_of in Hne. rewrite length_map in Hne.
       contradiction. }
  eexists. split; [reflexivity |].
  intros i t Ht Hfree. rewrite lookup_zip_with.
  unfold non_kinematic_mask_of. rewrite list_lookup_fmap, Ht.
  destruct (sampled_noise !! i) as [w|]; [| reflexivity].
  simpl. f_equal.
  replace (t =? KINEMATIC_PARTICLE_ID) with false
    by (symmetry; apply Z.eqb_neq; exact Hfree).
  rewrite <- (map_id w) at 2. apply map_ext. intros row.
  rewrite <- (map_id row) at 2. apply map_ext. intros x. apply Hmul1.
Qed.

Lemma loss_contributions_free (types : list Z) (errors : T1 F) :
  length types = length errors ->
  Forall (fun t => t <> KINEMATIC_PARTICLE_ID) types ->
  loss_contributions types errors = errors.
Proof.
  intros Hlen Hfree. revert errors Hlen. unfold loss_contributions.
  induction Hfree as [|t types Ht _ IH]; intros [|e errors] Hlen;
    simpl in Hlen; try lia; [reflexivity |].
  simpl. unfold is_kinematic.
  replace (t =? KINEMATIC_PARTICLE_ID) with false
    by (symmetry; apply Z.eqb_neq; exact Ht).
  f_equal. apply IH. lia.
Qed.

Lemma loss_contributions_kinematic (types : list Z) (errors : T1 F) :
  length types = length errors ->
  Forall (fun t => t = KINEMATIC_PARTICLE_ID) types ->
  loss_contributions types errors = replicate (length types) f_zero.
Proof.
  intros Hlen Hkin. revert errors Hlen. unfold loss_contributions.
  induction Hkin as [|t types -> _ IH]; intros [|e errors] Hlen;
    simpl in Hlen; try lia; [reflexivity |].
  simpl. f_equal. apply IH. lia.
Qed.

Lemma count_non_kinematic_free (types : list Z) :
  Forall (fun t => t <> KINEMATIC_PARTICLE_ID) types ->
  count_non_kinematic types = Z.of_nat (length types).
Proof.
  unfold count_non_kinematic. intros Hfree. f_equal. f_equal.
  induction Hfree as [|t types Ht _ IH]; [reflexivity |].
  simpl. unfold is_kinematic at 1.
  replace (t =? KINEMATIC_PARTICLE_ID) with false
    by (symmetry; apply Z.eqb_neq; exact Ht).
  simpl. f_equal. exact IH.
Qed.

Lemma count_non_kinematic_none (types : list Z) :
  Forall (fun t => t = KINEMATIC_PARTICLE_ID) types ->
  count_non_kinematic types = 0.
Proof.
  unfold count_non_kinematic. intros Hkin.
  induction Hkin as [|t types -> _ IH]; [reflexivity |].
  simpl. exact IH.
Qed.

(** The loss on accelerations of one shape and one type per particle. *)
Lemma masked_loss_value (pred_acc target_acc : T2 F)
    (particle_type : list Z) (n d : nat) :
  has_shape2 n d pred_acc ->
  has_shape2 n d target_acc ->
  length particle_type = n ->
  masked_loss pred_acc target_acc particle_type
  = Ok (f_div (sum1 (loss_contributions particle_type
                       (particle_errors pred_acc target_acc)))
              (f_of_Z (count_non_kinematic particle_type))).
Proof.
  intros Hpred Htarget Htypes.
  assert (length (particle_errors pred_acc target_acc) = n) as Herrors.
  { unfold particle_errors. rewrite length_zip_with.
    destruct Hpred as [-> _], Htarget as [-> _]. lia. }
  unfold masked_loss. rewrite (sub2_same_shape n d) by assumption.
  rewrite bind_Ok. unfold sum_last. rewrite map_zip_with, map_zip_with.
  fold (particle_errors pred_acc target_acc).
  unfold where_or_zero.
  rewrite (broadcast_same_length _
             (fun (b : bool) x => if b then x else f_zero)).
  - rewrite bind_Ok, mask_sum_count. do 3 f_equal.
    unfold non_kinematic_mask_of, loss_contributions.
    rewrite zip_with_fmap_l. apply zip_with_ext; [| reflexivity..].
    intros t e. unfold is_kinematic.
    destruct (t =? KINEMATIC_PARTICLE_ID); reflexivity.
  - unfold non_kinematic_mask_of. rewrite length_map. lia.
  - apply List.Forall_forall. intros; reflexivity.
Qed.

(** X10: in a batch without kinematic particles the loss is the plain
    mean: the sum of the squared errors of all particles over the number
    of particles. *)
Theorem masked_loss_without_kinematic (pred_acc target_acc : T2 F)
    (particle_type : list Z) (n d : nat) :
  has_shape2 n d pred_acc ->
  has_shape2 n d target_acc ->
  length particle_type = n ->
  Forall (fun t => t <> KINEMATIC_PARTICLE_ID) particle_type ->
  masked_loss pred_acc target_acc particle_type
  = Ok (f_div (sum1 (particle_errors pred_acc target_acc))
              (f_of_Z (Z.of_nat n))).
Proof.
  intros Hpred Htarget Htypes Hfree.
  rewrite (masked_loss_value _ _ _ n d) by assumption.
  rewrite loss_contributions_free, count_non_kinematic_free, Htypes;
    try assumption; [reflexivity |].
  unfold particle_errors. rewrite length_zip_with.
  destruct Hpred as [-> _], Htarget as [-> _]. lia.
Qed.

(** X11: in a batch of kinematic particles only, every contribution is
    zero and so is the divisor: the loss is a sum of zeros divided by
    zero. *)
Theorem masked_loss_all_kinematic (pred_acc target_acc : T2 F)
    (particle_type : list Z) (n d : nat) :
  has_shape2 n d pred_acc ->
  has_shape2 n d target_acc ->
  length particle_type = n ->
  Forall (fun t => t = KINEMATIC_PARTICLE_ID) particle_type ->
  masked_loss pred_acc target_acc particle_type
  = Ok (f_div (sum1 (replicate n f_zero)) (f_of_Z 0)).
Proof.
  intros Hpred Htarget Htypes Hkin.
  rewrite (masked_loss_value _ _ _ n d) by assumption.
  rewrite loss_contributions_kinematic, count_non_kinematic_none, Htypes;
    try assumption; [reflexivity |].
  unfold particle_errors. rewrite length_zip_with.
  destruct Hpred as [-> _], Htarget as [-> _]. lia.
Qed.

(** X12: with accelerations for [n] particles, [n] not 1, and a number of
    types that is neither [n] nor 1, [torch.where] cannot broadcast the
    mask and the loss raises. *)
Theorem masked_loss_type_count_mismatch (pred_acc target_acc : T2 F)
    (particle_type : list Z) (n d : nat) :
  has_shape2 n d pred_acc ->
  has_shape2 n d target_acc ->
  length particle_type <> n ->
  length particle_type <> 1%nat ->
  n <> 1%nat ->
  masked_loss pred_acc target_acc particle_type = Raise RuntimeError.
Proof.
  intros Hpred Htarget Hcount Hone Hn.
  assert (length (particle_errors pred_acc target_acc) = n) as Herrors.
  { unfold particle_errors. rewrite length_zip_with.
    destruct Hpred as [-> _], Htarget as [-> _]. lia. }
  unfold masked_loss. rewrite (sub2_same_shape n d) by assumption.
  rewrite bind_Ok. unfold sum_last. rewrite map_zip_with, map_zip_with.
  fold (particle_errors pred_acc target_acc).
  unfold where_or_zero, broadcast, non_kinematic_mask_of.
  rewrite length_map.
  destruct (decide _) as [Heq | _]; [congruence |].
  destruct particle_type as [|t [|t' types]]; simpl in Hone; try lia.
  - simpl.
    destruct (particle_errors pred_acc target_acc) as [|e [|e' errors]];
      simpl in Herrors; try reflexivity; lia.
  - simpl.
    destruct (particle_errors pred_acc target_acc) as [|e [|e' errors]];
      simpl in Herrors; try reflexivity; lia.
Qed.

End TrainBatchMore.

Lemma mask_noise_type_count_witness :
  TrainBaseline.mask_noise [[[3]]; [[4]]; [[5]]] example_types
  = Raise RuntimeError
  /\ TrainBaseline.mask_noise [[[3]]; [[4]]; [[5]]]
                              [TrainBaseline.KINEMATIC_PARTICLE_ID]
     = Ok [[[0]]; [[0]]; [[0]]].
Proof.
  destruct (mask_noise_type_count (F := Z) [[[3]]; [[4]]; [[5]]]
              example_types) as [Hraise _].
  destruct (mask_noise_type_count (F := Z) [[[3]]; [[4]]; [[5]]]
              [TrainBaseline.KINEMATIC_PARTICLE_ID]) as [_ Hone].
  split.
  - apply Hraise; simpl; lia.
  - exact (Hone _ eq_refl).
Defined.

Lemma non_kinematic_noise_is_kept_witness :
  exists noise,
    TrainBaseline.mask_noise [[[3; -4]; [5; 6]]; [[7; 8]; [9; 1]]]
                             example_types = Ok noise
    /\ noise !! 1%nat = Some [[7; 8]; [9; 1]].
Proof.
  destruct (non_kinematic_noise_is_kept (F := Z)
              [[[3; -4]; [5; 6]]; [[7; 8]; [9; 1]]] example_types)
    as (noise & Hrun & Hkept).
  - intros x. simpl. lia.
  - reflexivity.
  - exists noise. split; [exact Hrun |].
    apply (Hkept 1%nat 0); [reflexivity | discriminate].
Defined.

Lemma masked_loss_without_kinematic_witness :
  TrainBaseline.masked_loss (F := Z) [[1; 2]; [3; 4]] [[0; 0]; [0; 0]] [0; 1]
  = Ok 15.
Proof.
  assert (has_shape2 (F := Z) 2 2 [[1; 2]; [3; 4]]) as Hpred
    by (split; [reflexivity | repeat constructor]).
  assert (has_shape2 (F := Z) 2 2 [[0; 0]; [0; 0]]) as Htarget
    by (split; [reflexivity | repeat constructor]).
  assert (Forall (fun t => t <> TrainBaseline.KINEMATIC_PARTICLE_ID) [0; 1])
    as Hfree by (repeat constructor; discriminate).
  exact (masked_loss_without_kinematic (F := Z) _ _ [0; 1] 2 2
           Hpred Htarget eq_refl Hfree).
Defined.

Lemma masked_loss_all_kinematic_witness :
  TrainBaseline.masked_loss (F := Z) [[1; 2]; [3; 4]] [[0; 0]; [0; 0]]
                            [-1; -1]
  = Ok (0 `div` 0).
Proof.
  assert (has_shape2 (F := Z) 2 2 [[1; 2]; [3; 4]]) as Hpred
    by (split; [reflexivity | repeat constructor]).
  assert (has_shape2 (F := Z) 2 2 [[0; 0]; [0; 0]]) as Htarget
    by (split; [reflexivity | repeat constructor]).
  assert (Forall (fun t => t = TrainBaseline.KINEMATIC_PARTICLE_ID) [-1; -1])
    as Hkin by (repeat constructor).
  exact (masked_loss_all_kinematic (F := Z) _ _ [-1; -1] 2 2
           Hpred Htarget eq_refl Hkin).
Defined.

Lemma masked_loss_type_count_mismatch_witness :
  TrainBaseline.masked_loss (F := Z) [[1; 2]; [3; 4]] [[0; 0]; [0; 0]]
                            [0; 1; 0]
  = Raise RuntimeError.
Proof.
  apply (masked_loss_type_count_mismatch (F := Z) _ _ [0; 1; 0] 2 2).
  - split; [reflexivity | repeat constructor].
  - split; [reflexivity | repeat constructor].
  - simpl. lia.
  - simpl. lia.
  - lia.
Defined.

(** ** Checkpoint names: written by the loop, read back by [latest] *)

Section CheckpointNames.
Import TrainBaseline.

Lemma chars_app (a b : string) : chars (a +:+ b) = chars a ++ chars b.
Proof.
  unfold chars. induction a as [|c a IH]; simpl; [reflexivity |].
  f_equal. exact IH.
Qed.

Lemma append_assoc (a b c : string) : (a +:+ b) +:+ c = a +:+ b +:+ c.
Proof.
  induction a as [|x a IH]; [reflexivity |].
  change (String x ((a +:+ b) +:+ c) = String x (a +:+ b +:+ c)).
  rewrite IH. reflexivity.
Qed.

Lemma pretty_N_char_digit (d : N) :
  (d < 10)%N ->
  is_digit (pretty_N_char d) = true
  /\ Z.of_nat (nat_of_ascii (pretty_N_char d)) - 48 = Z.of_N d.
Proof.
  intros Hd.
  assert (d = 0 \/ d = 1 \/ d = 2 \/ d = 3 \/ d = 4 \/ d = 5 \/ d = 6
          \/ d = 7 \/ d = 8 \/ d = 9)%N as Hcases by lia.
  repeat (destruct Hcases as [-> | Hcases]; [split; reflexivity |]).
  subst d. split; reflexivity.
Qed.

Lemma pretty_N_go_app (x : N) (s : string) :
  pretty_N_go x s = pretty_N_go x EmptyString +:+ s.
Proof.
  revert s. induction (N.lt_wf_0 x) as [x _ IH]. intros s.
  destruct (decide (x = 0)%N) as [-> | Hx].
  - rewrite !pretty_N_go_0. reflexivity.
  - assert (x `div` 10 < x)%N as Hlt by (apply N.div_lt; lia).
    rewrite !(pretty_N_go_step x) by lia.
    rewrite (IH _ Hlt (String _ s)).
    rewrite (IH _ Hlt (String _ EmptyString)).
    rewrite append_assoc. reflexivity.
Qed.

Lemma int_of_digits_snoc (ds : list ascii) (c : ascii) :
  int_of_digits (ds ++ [c])
  = 10 * int_of_digits ds + (Z.of_nat (nat_of_ascii c) - 48).
Proof. unfold int_of_digits. rewrite foldl_app. reflexivity. Qed.

Lemma pretty_N_go_digits (x : N) :
  Forall (fun c => is_digit c = true) (chars (pretty_N_go x EmptyString))
  /\ int_of_digits (chars (pretty_N_go x EmptyString)) = Z.of_N x
  /\ ((0 < x)%N -> chars (pretty_N_go x EmptyString) <> []).
Proof.
  induction (N.lt_wf_0 x) as [x _ IH].
  destruct (decide (x = 0)%N) as [-> | Hx].
  - rewrite pretty_N_go_0. split; [constructor | split; [reflexivity | lia]].
  - rewrite pretty_N_go_step, pretty_N_go_app, chars_app by lia.
    destruct (IH (x `div` 10)%N) as (Hdigits & Hvalue & _);
      [apply N.div_lt; lia |].
    destruct (pretty_N_char_digit (x `mod` 10)%N) as [Hdigit Hchar];
      [apply N.mod_lt; lia |].
    change (chars (String (pretty_N_char (x `mod` 10)) EmptyString))
      with [pretty_N_char (x `mod` 10)].
    split; [| split].
    + apply Forall_app. split; [exact Hdigits |]. constructor; [| constructor].
      exact Hdigit.
    + rewrite int_of_digits_snoc, Hvalue, Hchar.
      rewrite (N.div_mod x 10) at 3 by lia. lia.
    + intros _ Hnil. apply app_eq_nil in Hnil as [_ Hnil]. discriminate Hnil.
Qed.

(** The decimal numeral of a step is a non-empty run of digits whose value
    is the step. *)
Lemma pretty_step_digits (n : Z) :
  0 <= n ->
  Forall (fun c => is_digit c = true) (chars (pretty n))
  /\ int_of_digits (chars (pretty n)) = n
  /\ chars (pretty n) <> [].
Proof.
  intros Hn. destruct n as [|p|p]; [| | lia].
  - split; [repeat constructor | split; [reflexivity | discriminate]].
  - change (pretty (Z.pos p)) with (pretty (N.pos p)).
    unfold pretty, pretty_N.
    destruct (decide (N.pos p = 0)%N) as [Hzero | _]; [discriminate |].
    destruct (pretty_N_go_digits (N.pos p)) as (Hdigits & Hvalue & Hne).
    split; [exact Hdigits | split; [exact Hvalue | apply Hne; lia]].
Qed.

Lemma strip_prefix_app (pre z : list ascii) :
  strip_prefix pre (pre ++ z) = Some z.
Proof.
  induction pre as [|a pre IH]; simpl; [reflexivity |].
  rewrite Ascii.eqb_refl. exact IH.
Qed.


Lemma strip_prefix_Some (pre x r : list ascii) :
  strip_prefix pre x = Some r -> x = pre ++ r.
Proof.
  revert x. induction pre as [|a pre IH]; intros x; simpl.
  - intros [= ->]. reflexivity.
  - destruct x as [|b x]; [discriminate |].
    destruct (Ascii.eqb_spec a b) as [-> | _]; [| discriminate].
    intros Hr. f_equal. apply IH. exact Hr.
Qed.

Lemma strip_prefix_extend (pre x z : list ascii) :
  (length pre <= length x)%nat ->
  strip_prefix pre (x ++ z) = (fun r => r ++ z) <$> strip_prefix pre x.
Proof.
  revert x. induction pre as [|a pre IH]; intros x Hlen; simpl.
  - reflexivity.
  - destruct x as [|b x]; simpl in Hlen; [lia |]. simpl.
    destruct (Ascii.eqb a b); [apply IH; lia | reflexivity].
Qed.

Lemma span_digits_nondigit (r : list ascii) (c : ascii) (z : list ascii) :
  is_digit c = false ->
  span_digits (r ++ c :: z)
  = ((span_digits r).1, (span_digits r).2 ++ c :: z).
Proof.
  intros Hc. induction r as [|a r IH]; simpl.
  - rewrite Hc. reflexivity.
  - destruct (is_digit a); [| reflexivity].
    rewrite IH. destruct (span_digits r). reflexivity.
Qed.

Lemma span_digits_all (ds : list ascii) :
  Forall (fun c => is_digit c = true) ds -> span_digits ds = (ds, []).
Proof.
  induction 1 as [|c ds Hc _ IH]; simpl; [reflexivity |].
  rewrite Hc, IH. reflexivity.
Qed.

Lemma digit_not_p (d : ascii) :
  is_digit d = true -> Ascii.eqb d "p"%char = false.
Proof.
  intros Hd. destruct (Ascii.eqb_spec d "p"%char) as [-> | _];
    [discriminate Hd | reflexivity].
Qed.

(** What follows a dash and a digit cannot complete [.pt] any further than
    the dash alone does. *)
Lemma matches_dot_pt_extend (v : list ascii) (d : ascii) (y : list ascii) :
  is_digit d = true ->
  matches_dot_pt (v ++ dash :: d :: y) = matches_dot_pt (v ++ [dash]).
Proof.
  intros Hd. unfold matches_dot_pt.
  destruct v as [|a [|b [|c v]]]; cbn [app]; try reflexivity.
  - destruct y; [reflexivity |]. rewrite (digit_not_p d Hd).
    rewrite andb_false_r. reflexivity.
  - change (Ascii.eqb dash "p"%char) with false.
    rewrite andb_false_r. reflexivity.
Qed.

Lemma match_group_extend (k : nat) (ds u : list ascii) (d : ascii)
    (y : list ascii) :
  is_digit d = true ->
  match_group k ds (u ++ dash :: d :: y) = match_group k ds (u ++ [dash]).
Proof.
  intros Hd. induction k as [|k IH]; [reflexivity |].
  cbn [match_group]. rewrite !app_assoc.
  rewrite (matches_dot_pt_extend _ d y Hd), IH. reflexivity.
Qed.

(** A match that starts early enough ends before the step number. *)
Lemma match_here_extend (exp_id : string) (x0 : list ascii) (d : ascii)
    (y : list ascii) :
  (1 + length (chars (exp_id +:+ "-model-")) <= length x0)%nat ->
  is_digit d = true ->
  match_here exp_id ((x0 ++ [dash]) ++ d :: y)
  = match_here exp_id (x0 ++ [dash]).
Proof.
  intros Hlen Hd. destruct x0 as [|c x1]; simpl in Hlen; [lia |].
  cbn [app match_here]. destruct (is_dot c); [| reflexivity].
  rewrite strip_prefix_extend by (rewrite length_app; simpl; lia).
  destruct (strip_prefix _ (x1 ++ [dash])) as [r|] eqn:Hr; [| reflexivity].
  cbn [fmap option_fmap option_map].
  apply strip_prefix_Some in Hr.
  assert (r = drop (length (chars (exp_id +:+ "-model-"))) x1 ++ [dash])
    as ->.
  { apply (f_equal (drop (length (chars (exp_id +:+ "-model-"))))) in Hr.
    rewrite drop_app_length in Hr. rewrite <- Hr.
    rewrite drop_app_le by lia. reflexivity. }
  rewrite <- app_assoc. cbn [app].
  rewrite !span_digits_nondigit by reflexivity.
  destruct (span_digits _) as [ds rest]. cbn [fst snd].
  apply match_group_extend. exact Hd.
Qed.

Lemma search_skip (exp_id : string) (l1 l2 : list ascii) :
  (forall i, (i < length l1)%nat ->
             match_here exp_id (drop i (l1 ++ l2)) = None) ->
  search exp_id (l1 ++ l2) = search exp_id l2.
Proof.
  induction l1 as [|a l1 IH]; intros Hnone; [reflexivity |].
  cbn [app search].
  pose proof (Hnone 0%nat ltac:(simpl; lia)) as H0. cbn [drop app] in H0.
  rewrite H0. apply IH. intros i Hi.
  exact (Hnone (S i) ltac:(simpl; lia)).
Qed.

Lemma search_None_everywhere (exp_id : string) (s : list ascii) (i : nat) :
  search exp_id s = None -> match_here exp_id (drop i s) = None.
Proof.
  revert i. induction s as [|a s IH]; intros i Hnone.
  - rewrite drop_nil. reflexivity.
  - cbn [search] in Hnone.
    destruct (match_here exp_id (a :: s)) eqn:Hhere; [discriminate |].
    destruct i as [|i]; [exact Hhere | apply IH; exact Hnone].
Qed.

Lemma match_group_all (ds rest : list ascii) :
  ds <> [] ->
  matches_dot_pt rest = true ->
  match_group (length ds) ds rest = Some ds.
Proof.
  intros Hne Hrest. destruct (length ds) as [|k] eqn:Hk.
  - destruct ds; [congruence | discriminate Hk].
  - cbn [match_group]. rewrite <- Hk, drop_all, take_ge by lia.
    cbn [app]. rewrite Hrest. reflexivity.
Qed.

Lemma match_here_checkpoint (exp_id : string) (c : ascii)
    (ds : list ascii) :
  is_dot c = true ->
  Forall (fun c => is_digit c = true) ds ->
  ds <> [] ->
  match_here exp_id
    (c :: chars (exp_id +:+ "-model-") ++ ds ++ chars ".pt")
  = Some ds.
Proof.
  intros Hc Hds Hne. cbn [match_here]. rewrite Hc, strip_prefix_app.
  change (chars ".pt") with ("."%char :: chars "pt").
  rewrite span_digits_nondigit by reflexivity.
  rewrite (span_digits_all ds Hds). cbn [fst snd app].
  apply match_group_all; [exact Hne | reflexivity].
Qed.

Lemma model_number_model_name (model_path exp_id : string) (n : Z) :
  plain_prefix model_path exp_id ->
  0 <= n ->
  model_number exp_id (model_path +:+ model_name exp_id n) = Ok n.
Proof.
  intros [(front & c & Hpath & Hc) Hprefix] Hn.
  destruct (pretty_step_digits n Hn) as (Hdigits & Hvalue & Hne).
  unfold model_number, model_name.
  rewrite !chars_app in *. rewrite Hpath in *.
  set (ds := chars (pretty n)) in *.
  assert (search exp_id
            ((front ++ [c]) ++ chars exp_id ++ chars "-model-" ++ ds
             ++ chars ".pt") = Some ds) as ->; [| rewrite Hvalue; reflexivity].
  rewrite <- app_assoc. cbn [app]. rewrite search_skip.
  - pose proof (match_here_checkpoint exp_id c ds Hc Hdigits Hne) as Hhere.
    rewrite chars_app, <- app_assoc in Hhere.
    cbn [search]. rewrite Hhere. reflexivity.
  - intros i Hi. destruct ds as [|d ds']; [congruence |].
    inversion Hdigits as [|? ? Hd _]; subst.
    change (chars "-model-") with (chars "-model" ++ [dash]).
    replace (front ++ c :: chars exp_id ++ (chars "-model" ++ [dash])
             ++ (d :: ds') ++ chars ".pt")
      with (((front ++ c :: chars exp_id ++ chars "-model") ++ [dash])
            ++ d :: (ds' ++ chars ".pt"))
      by (rewrite <- !app_assoc; cbn [app]; rewrite <- !app_assoc;
          reflexivity).
    rewrite drop_app_le by (rewrite !length_app; simpl; lia).
    rewrite drop_app_le by (rewrite !length_app; simpl; lia).
    rewrite match_here_extend.
    + rewrite <- drop_app_le by (rewrite !length_app; simpl; lia).
      replace ((front ++ c :: chars exp_id ++ chars "-model") ++ [dash])
        with ((front ++ [c]) ++ chars exp_id ++ chars "-model-")
        by (change (chars "-model-") with (chars "-model" ++ [dash]);
            rewrite <- !app_assoc; cbn [app]; rewrite <- !app_assoc;
            reflexivity).
      apply search_None_everywhere. exact Hprefix.
    + rewrite length_drop, chars_app, !length_app. simpl.
      rewrite !length_app. simpl. lia.
    + exact Hd.
Qed.

(** X13: for plain names, the name under which the training loop saves
    the model at step [n] is read back as [n] by the pattern of the
    [latest] branch. *)
Theorem checkpoint_name_round_trip (model_path exp_id : string) (n : Z) :
  plain_names model_path exp_id = true ->
  plain_prefix model_path exp_id ->
  0 <= n ->
  model_number exp_id (model_path +:+ model_name exp_id n) = Ok n.
Proof. intros _. apply model_number_model_name. Qed.

Lemma plain_prefix_example : plain_prefix "models/" "exp".
Proof.
  split; [| reflexivity].
  exists (chars "models"), "/"%char. split; reflexivity.
Qed.

Lemma checkpoint_name_round_trip_witness :
  model_number "exp" "models/exp-model-4000.pt" = Ok 4000.
Proof.
  assert (0 <= 4000) as Hstep by lia.
  exact (checkpoint_name_round_trip "models/" "exp" 4000
           eq_refl plain_prefix_example Hstep).
Defined.

Lemma digit_not_slash (c : ascii) :
  is_digit c = true -> negb (Ascii.eqb c "/"%char) = true.
Proof.
  intros Hc. destruct (Ascii.eqb_spec c "/"%char) as [-> | _];
    [discriminate Hc | reflexivity].
Qed.

(** The glob of the [latest] branch takes the model file of a checkpoint. *)
Lemma glob_match_model (model_path exp_id : string) (n : Z) :
  0 <= n ->
  glob_match model_path exp_id (model_path +:+ model_name exp_id n) = true.
Proof.
  intros Hn. destruct (pretty_step_digits n Hn) as (Hdigits & _ & _).
  unfold glob_match, model_name. rewrite !chars_app.
  set (ds := chars (pretty n)) in *.
  replace (chars model_path ++ chars exp_id ++ chars "-model-" ++ ds
           ++ chars ".pt")
    with ((chars model_path ++ chars exp_id ++ chars "-model-")
          ++ ds ++ chars ".pt")
    by (rewrite <- !app_assoc; reflexivity).
  rewrite strip_prefix_app. apply andb_true_intro. split.
  - unfold ends_with. apply bool_decide_eq_true.
    change (chars ".pt") with (["."%char] ++ chars "pt").
    rewrite app_assoc.
    replace (length ((ds ++ ["."%char]) ++ chars "pt") - length (chars "pt"))%nat
      with (length (ds ++ ["."%char]))
      by (rewrite !length_app; simpl; lia).
    apply drop_app_length.
  - rewrite forallb_app. apply andb_true_intro. split; [| reflexivity].
    apply forallb_forall. intros c Hc. apply digit_not_slash.
    rewrite List.Forall_forall in Hdigits. apply Hdigits. exact Hc.
Qed.








Lemma resume_first_run (fs : list string)
    (saved_step : string -> Z) (flags : Flags) :
  both_latest flags ->
  glob_models fs (model_path flags) (exp_id flags) = [] ->
  resume fs saved_step flags
  = Ok {| flags_after := flags_at flags 0;
          loaded := None;
          step := 0;
          logged := [not_found_message (flags_at flags 0);
                     "Starting training from scratch."] |}.
Proof.
  intros [Hmodel Hstate] Hclean. unfold resume. rewrite Hmodel.
  unfold resolve_latest. rewrite Hmodel, Hstate.
  rewrite bool_decide_eq_true_2 by (split; reflexivity).
  rewrite Hclean. cbn [for_in]. rewrite !bind_Ok.
  fold (flags_at flags 0).
  assert (os_path_exists fs
            (model_path (flags_at flags 0)
             +:+ default EmptyString (model_file (flags_at flags 0)))
          = false) as ->; [| reflexivity].
  unfold os_path_exists. apply bool_decide_eq_false. intros Hin.
  assert (In (model_path flags +:+ model_name (exp_id flags) 0)
             (glob_models fs (model_path flags) (exp_id flags))) as Hglob.
  { unfold glob_models. apply filter_In. split.
    - apply list_elem_of_In. exact Hin.
    - apply glob_match_model. lia. }
  rewrite Hclean in Hglob. destruct Hglob.
Qed.

(** X15: a first run.  When the model directory holds no model file of the
    experiment, both file flags are [latest] and the names are plain, the
    flags are set to the pair of step 0, which is not there: the message is
    logged and training starts from scratch at step 0. *)
Theorem first_run_starts_from_scratch (fs : list string)
    (saved_step : string -> Z) (flags : Flags) :
  both_latest flags ->
  plain_names (model_path flags) (exp_id flags) = true ->
  glob_models fs (model_path flags) (exp_id flags) = [] ->
  resume fs saved_step flags
  = Ok {| flags_after := flags_at flags 0;
          loaded := None;
          step := 0;
          logged := [not_found_message (flags_at flags 0);
                     "Starting training from scratch."] |}.
Proof. intros Hlatest _. apply resume_first_run. exact Hlatest. Qed.


Lemma model_number_raise (exp_id fname : string) (e : exn) :
  model_number exp_id fname = Raise e -> e = AttributeError.
Proof.
  unfold model_number. destruct (search _ _); [discriminate |].
  intros [= <-]. reflexivity.
Qed.

Lemma max_loop_raises (exp_id : string) (fnames : list string)
    (fname : string) (start : Z) :
  In fname fnames ->
  model_number exp_id fname = Raise AttributeError ->
  for_in fnames
    (fun fname (max_model_number : Z) =>
       model_num ← model_number exp_id fname;
       Ok (if max_model_number <? model_num
           then model_num else max_model_number))
    start
  = Raise AttributeError.
Proof.
  intros Hin Hbad. revert start.
  induction fnames as [|f fnames IH]; intros start; [destruct Hin |].
  cbn [for_in]. destruct (model_number exp_id f) as [n | e] eqn:Hf.
  - rewrite !bind_Ok. apply IH. destruct Hin as [-> | Hin]; [| exact Hin].
    congruence.
  - apply model_number_raise in Hf as ->. reflexivity.
Qed.

(** X16: a file that the glob takes and in which the pattern finds no step
    number (as [exp-model-best.pt]) makes the [latest] branch fail:
    [search] gives [None] and [resume] raises AttributeError. *)
Theorem unnumbered_model_file_raises (fs : list string)
    (saved_step : string -> Z) (flags : Flags) (fname : string) :
  both_latest flags ->
  In fname (glob_models fs (model_path flags) (exp_id flags)) ->
  search (exp_id flags) (chars fname) = None ->
  resume fs saved_step flags = Raise AttributeError.
Proof.
  intros [Hmodel Hstate] Hin Hnone. unfold resume. rewrite Hmodel.
  unfold resolve_latest. rewrite Hmodel, Hstate.
  rewrite bool_decide_eq_true_2 by (split; reflexivity).
  rewrite (max_loop_raises _ _ fname); [reflexivity | exact Hin |].
  unfold model_number. rewrite Hnone. reflexivity.
Qed.

End CheckpointNames.


Lemma first_run_starts_from_scratch_witness :
  TrainBaseline.resume ["models/notes.txt"] (fun _ => 7) latest_flags
  = Ok {| TrainBaseline.flags_after := flags_at latest_flags 0;
          TrainBaseline.loaded := None;
          TrainBaseline.step := 0;
          TrainBaseline.logged :=
            ["Specified model_file models/exp-model-0.pt and train_state_file models/exp-train-state-0.pt not found.";
             "Starting training from scratch."] |}.
Proof.
  assert (both_latest latest_flags) as Hlatest by (split; reflexivity).
  exact (first_run_starts_from_scratch ["models/notes.txt"] (fun _ => 7)
           latest_flags Hlatest eq_refl eq_refl).
Defined.

Lemma unnumbered_model_file_raises_witness :
  TrainBaseline.resume ["models/exp-model-10.pt"; "models/exp-model-best.pt"]
                       (fun _ => 10) latest_flags
  = Raise AttributeError.
Proof.
  assert (both_latest latest_flags) as Hlatest by (split; reflexivity).
  apply (unnumbered_model_file_raises _ _ latest_flags
           "models/exp-model-best.pt" Hlatest).
  - right. left. reflexivity.
  - reflexivity.
Defined.

(** ** predict *)

Section PredictProps.
Context {F : Type} `{Float F}.
Import Torch TrainDriver.

Variable load : TrainBaseline.SimulatorArgs (F := F) -> string ->
                TrainBaseline.Simulator (F := F).
Variable metadata : TrainBaseline.Metadata (F := F).


Lemma predict_loop_after_first (simulator : TrainBaseline.Simulator)
    (flags : PredictFlags) (i : nat) (ds : list Example)
    (st : Effects * list (list F)) :
  predict_loop simulator metadata flags (S i) ds st = Return st.
Proof. destruct ds; reflexivity. Qed.

Lemma predict_loop_first (simulator : TrainBaseline.Simulator)
    (flags : PredictFlags) (ex : Example) (rest : list Example)
    (st : Effects * list (list F)) :
  predict_loop simulator metadata flags 0 (ex :: rest) st
  = predict_example simulator metadata flags 0 ex st.
Proof.
  cbn [predict_loop Nat.ltb Nat.leb].
  destruct (predict_example simulator metadata flags 0 ex st) as [st'|e];
    [| reflexivity].
  cbn [mbind outcome_bind]. apply predict_loop_after_first.
Qed.

(** X18: only the first example of the data loader is rolled out: what
    follows it changes nothing of the result. *)
Theorem predict_first_example_only (fs : list string) (ex : Example)
    (rest : list Example) (flags : PredictFlags) :
  predict fs load metadata (ex :: rest) flags
  = predict fs load metadata [ex] flags.
Proof.
  unfold predict.
  destruct (TrainBaseline.os_path_exists fs
              (model_path flags +:+ model_file flags)); [| reflexivity].
  cbn [mbind outcome_bind].
  destruct (if TrainBaseline.os_path_exists fs (output_path flags)
            then Return fs else os_makedirs fs (output_path flags))
    as [fs' | e]; [| reflexivity].
  cbn [mbind outcome_bind]. rewrite !predict_loop_first. reflexivity.
Qed.






End PredictProps.






(** ** optimizer_to *)

Section OptimizerProps.
Context {Device Key Payload : Type}.
Import TrainDriver.

#[local] Abbreviation value :=
  (state_value (Device := Device) (Key := Key) (Payload := Payload)).

Lemma tensor_to_on (device : Device) (t : Tensor) :
  tensor_on device
    (tensor_to (Device := Device) (Payload := Payload) device t).
Proof.
  split; [reflexivity |]. simpl. destruct (grad_device t); [right | left];
    reflexivity.
Qed.

Lemma tensor_to_content (device : Device) (t : Tensor) :
  tensor_content
    (tensor_to (Device := Device) (Payload := Payload) device t)
  = tensor_content t.
Proof.
  unfold tensor_content. simpl. destruct (grad_device t); reflexivity.
Qed.

Lemma tensor_to_again (d1 d2 : Device) (t : Tensor) :
  tensor_to (Device := Device) (Payload := Payload) d2 (tensor_to d1 t)
  = tensor_to d2 t.
Proof.
  unfold tensor_to. simpl. destruct (grad_device t); reflexivity.
Qed.

Lemma subparam_to_again (d1 d2 : Device) (v : value) :
  subparam_to d2 (subparam_to d1 v) = subparam_to d2 v.
Proof.
  destruct v; simpl; try reflexivity. rewrite tensor_to_again. reflexivity.
Qed.

Lemma param_to_again (d1 d2 : Device) (v : value) :
  param_to d2 (param_to d1 v) = param_to d2 v.
Proof.
  destruct v as [t | entries | p]; simpl; try reflexivity.
  - rewrite tensor_to_again. reflexivity.
  - f_equal. rewrite map_map. apply map_ext. intros [k v]. simpl.
    rewrite subparam_to_again. reflexivity.
Qed.

Lemma subparam_to_content (device : Device) (v : value) :
  entry_content (subparam_to device v) = entry_content v.
Proof.
  destruct v; simpl; try reflexivity. rewrite tensor_to_content. reflexivity.
Qed.

Lemma param_to_content (device : Device) (v : value) :
  value_content (param_to device v) = value_content v.
Proof.
  destruct v as [t | entries | p]; simpl; try reflexivity.
  - rewrite tensor_to_content. reflexivity.
  - do 2 f_equal. rewrite map_map. apply map_ext. intros [k v]. simpl.
    rewrite subparam_to_content. reflexivity.
Qed.

(** X22: after [optimizer_to(optim, device)] every tensor that is a value
    of the state, or an entry of a dict that is a value of the state, has
    its data and its gradient on [device]; keys, order, payloads and
    everything that is not such a tensor (a dict inside a dict too) are
    as before. *)
Theorem optimizer_to_moves_tensors (state : list (Key * value))
    (device : Device) :
  let moved := optimizer_to state device in
  (forall k t, (k, TensorValue t) ∈ moved -> tensor_on device t)
  /\ (forall k entries k' t,
        (k, DictValue entries) ∈ moved ->
        (k', TensorValue t) ∈ entries ->
        tensor_on device t)
  /\ map (fun kv => (kv.1, value_content kv.2)) moved
     = map (fun kv => (kv.1, value_content kv.2)) state.
Proof.
  intros moved. subst moved. unfold optimizer_to. split; [| split].
  - intros k t Hin. apply list_elem_of_fmap in Hin as ([k0 v] & Heq & _).
    simpl in Heq. injection Heq as _ Hv.
    destruct v as [t0 | entries | p]; simpl in Hv; try discriminate.
    injection Hv as ->. apply tensor_to_on.
  - intros k entries k' t Hin Hentry.
    apply list_elem_of_fmap in Hin as ([k0 v] & Heq & _).
    simpl in Heq. injection Heq as _ Hv.
    destruct v as [t0 | entries0 | p]; simpl in Hv; try discriminate.
    injection Hv as ->.
    apply list_elem_of_fmap in Hentry as ([k1 v1] & Heq & _).
    simpl in Heq. injection Heq as _ Hv.
    destruct v1 as [t1 | ? | ?]; simpl in Hv; try discriminate.
    injection Hv as ->. apply tensor_to_on.
  - rewrite map_map. apply map_ext. intros [k v]. simpl.
    rewrite param_to_content. reflexivity.
Qed.

(** X23: moving the optimizer state twice is moving it to the second
    device: the first move leaves no trace, and moving again to the same
    device changes nothing. *)
Theorem optimizer_to_last_device (state : list (Key * value))
    (d1 d2 : Device) :
  optimizer_to (optimizer_to state d1) d2 = optimizer_to state d2.
Proof.
  unfold optimizer_to. rewrite map_map. apply map_ext. intros [k v]. simpl.
  rewrite param_to_again. reflexivity.
Qed.

End OptimizerProps.

(** ** train: the training loop *)

Section LoopProps.
Context {B : Type}.
Import TrainDriver.

Variable run_batch : Z -> B -> result unit.
Variable update_lr : Z -> outcome unit.
Variable flags : LoopFlags.

#[local] Abbreviation N := (ntraining_steps flags).

Hypothesis batches_run : forall s b, run_batch s b = Ok tt.
Hypothesis lr_updates : forall s, update_lr s = Return tt.

Lemma steps_from_S (first : Z) (count : nat) :
  steps_from first (S count) = first :: steps_from (first + 1) count.
Proof.
  unfold steps_from. cbn [seq map]. f_equal; [lia |].
  rewrite <- seq_shift, map_map. apply map_ext. intros k. lia.
Qed.

Lemma steps_from_app (first : Z) (a b : nat) :
  steps_from first (a + b)
  = steps_from first a ++ steps_from (first + Z.of_nat a) b.
Proof.
  revert first. induction a as [|a IH]; intros first.
  - simpl. f_equal. lia.
  - cbn [Nat.add]. rewrite !steps_from_S, IH. cbn [app]. do 3 f_equal. lia.
Qed.

(** One pass of the body when no interval is 0. *)
Lemma train_body_events (b : B) (s : Z) (ev : list event) :
  intervals_set flags ->
  train_body run_batch update_lr flags b {| step := s; events := ev |}
  = Return ({| step := if N <=? s then s else s + 1;
               events := ev ++ step_events flags s |},
            negb (N <=? s)).
Proof.
  intros (Hlr & Hlog & Hsave). unfold train_body, step_events, divides_step.
  cbn [step events]. rewrite batches_run. cbn [lift mbind outcome_bind].
  rewrite (proj2 (Z.eqb_neq _ _) Hlr), (proj2 (Z.eqb_neq _ _) Hlog).
  rewrite lr_updates. cbn [mbind outcome_bind].
  destruct (is_main flags) eqn:Hmain.
  - rewrite (proj2 (Z.eqb_neq _ _) (Hsave eq_refl)). cbn [mbind outcome_bind].
    destruct (s mod nlog_steps flags =? 0), (s mod nsave_steps flags =? 0),
      (N <=? s); cbn [andb negb app]; rewrite <- ?app_assoc; reflexivity.
  - cbn [mbind outcome_bind andb].
    destruct (s mod nlog_steps flags =? 0), (N <=? s); cbn [negb app];
      rewrite <- ?app_assoc, ?app_nil_r; reflexivity.
Qed.

(** One pass over the data loader: it ends the loop at the last step, or
    uses every batch. *)
Lemma train_epoch_events (batches : list B) (s : Z) (ev : list event) :
  intervals_set flags ->
  batches <> [] \/ s <= N ->
  train_epoch run_batch update_lr flags batches {| step := s; events := ev |}
  = if s + Z.of_nat (length batches) <=? N
    then Return ({| step := s + Z.of_nat (length batches);
                    events := ev ++ flat_map (step_events flags)
                                      (steps_from s (length batches)) |},
                 true)
    else Return ({| step := Z.max s N;
                    events := ev ++ flat_map (step_events flags)
                                      (step_range s (Z.max s N)) |},
                 false).
Proof.
  intros Hset. revert s ev.
  induction batches as [|b batches IH]; intros s ev Hstart.
  - destruct Hstart as [Hne | Hle]; [congruence |].
    cbn [length train_epoch].
    replace (s + Z.of_nat 0 <=? N) with true by (symmetry; apply Z.leb_le; lia).
    simpl. rewrite app_nil_r. do 3 f_equal. lia.
  - cbn [train_epoch]. rewrite (train_body_events b s ev Hset).
    cbn [mbind outcome_bind].
    destruct (Z.leb_spec N s) as [Hstop | Hgo]; cbn [negb].
    + replace (s + Z.of_nat (length (b :: batches)) <=? N) with false
        by (symmetry; apply Z.leb_gt; cbn [length]; lia).
      unfold step_range. replace (Z.max s N) with s by lia.
      replace (Z.to_nat (s - s + 1)) with 1%nat by lia.
      rewrite steps_from_S. cbn [steps_from seq map flat_map].
      rewrite app_nil_r. reflexivity.
    + rewrite IH by (right; lia). cbn [length].
      destruct (Z.leb_spec (s + Z.of_nat (S (length batches))) N) as [Hall | Hend].
      * replace (s + 1 + Z.of_nat (length batches) <=? N) with true
          by (symmetry; apply Z.leb_le; lia).
        rewrite steps_from_S. cbn [flat_map]. rewrite <- !app_assoc.
        do 3 f_equal. lia.
      * replace (s + 1 + Z.of_nat (length batches) <=? N) with false
          by (symmetry; apply Z.leb_gt; lia).
        unfold step_range. replace (Z.max (s + 1) N) with N by lia.
        replace (Z.max s N) with N by lia.
        replace (Z.to_nat (N - s + 1)) with (S (Z.to_nat (N - (s + 1) + 1)))
          by lia.
        rewrite steps_from_S. cbn [flat_map]. rewrite <- !app_assoc.
        reflexivity.
Qed.

Lemma train_loop_events (dl : list B) (fuel : nat) (s : Z)
    (ev : list event) :
  intervals_set flags ->
  dl <> [] ->
  (Z.to_nat (N - s) < fuel)%nat ->
  train_loop run_batch update_lr fuel flags dl {| step := s; events := ev |}
  = Some (Return {| step := Z.max s N;
                    events := ev ++ flat_map (step_events flags)
                                      (step_range s (Z.max s N))
                              ++ [SaveLossPlot] |}).
Proof.
  intros Hset Hdl. revert s ev.
  induction fuel as [|fuel IH]; intros s ev Hfuel; [lia |].
  cbn [train_loop]. rewrite train_epoch_events by auto.
  assert (0 < length dl)%nat as Hlen
    by (destruct dl; [congruence | simpl; lia]).
  destruct (Z.leb_spec (s + Z.of_nat (length dl)) N) as [Hmore | Hend].
  - rewrite IH by lia. apply f_equal. apply f_equal. f_equal; [lia |].
    rewrite <- app_assoc. f_equal. rewrite app_assoc. f_equal.
    unfold step_range.
    replace (Z.max (s + Z.of_nat (length dl)) N) with N by lia.
    replace (Z.max s N) with N by lia.
    replace (Z.to_nat (N - s + 1))
      with (length dl + Z.to_nat (N - (s + Z.of_nat (length dl)) + 1))%nat
      by lia.
    rewrite steps_from_app, flat_map_app. reflexivity.
  - cbn [step events]. rewrite <- app_assoc. reflexivity.
Qed.

(** X24: with a data loader that is not empty, batches and learning-rate
    updates that return, and no interval 0, the loop ends once the batch of
    step [ntraining_steps] is done: from step [s] it takes one optimizer step at each of
    [s, ..., max s ntraining_steps], in order, each followed by its log and
    checkpoint when due, and then saves the loss plot.  A run from step 0
    so takes [ntraining_steps + 1] optimizer steps, and a run resumed
    beyond the last step still takes one. *)
Theorem train_loop_reaches_last_step (dl : list B) (fuel : nat) (s : Z)
    (ev : list event) :
  intervals_set flags ->
  dl <> [] ->
  (Z.to_nat (N - s) < fuel)%nat ->
  train_loop run_batch update_lr fuel flags dl {| step := s; events := ev |}
  = Some (Return {| step := Z.max s N;
                    events := ev ++ flat_map (step_events flags)
                                      (step_range s (Z.max s N))
                              ++ [SaveLossPlot] |})
  /\ length (step_range s (Z.max s N)) = Z.to_nat (Z.max 1 (N - s + 1)).
Proof.
  intros Hset Hdl Hfuel. split; [apply train_loop_events; assumption |].
  unfold step_range, steps_from. rewrite length_map, length_seq. lia.
Qed.

(** X25: when the data loader yields no batch, the [while] loop never
    ends: no number of passes leaves it. *)
Theorem train_loop_empty_loader (fuel : nat) (st : loop_state) :
  train_loop run_batch update_lr fuel flags [] st = None.
Proof. induction fuel as [|fuel IH]; [reflexivity | exact IH]. Qed.

(** X26: an interval of 0 ends training with ZeroDivisionError in the
    first pass of the body, after the batch has run and the optimizer has
    stepped: [lr_decay_steps] in the learning rate, [nlog_steps] in the log
    test, and on the main process [nsave_steps] in the save test. *)
Theorem train_loop_zero_interval (fuel : nat) (b : B) (rest : list B)
    (st : loop_state) :
  run_batch (step st) b = Ok tt ->
  update_lr (step st) = Return tt ->
  lr_decay_steps flags = 0 \/ nlog_steps flags = 0
  \/ (is_main flags = true /\ nsave_steps flags = 0) ->
  train_loop run_batch update_lr (S fuel) flags (b :: rest) st
  = Some (Throw ZeroDivisionError).
Proof.
  intros Hrun Hlr_new Hzero. cbn [train_loop train_epoch].
  assert (train_body run_batch update_lr flags b st = Throw ZeroDivisionError) as ->;
    [| reflexivity].
  unfold train_body, divides_step. rewrite Hrun. cbn [lift mbind outcome_bind].
  destruct (lr_decay_steps flags =? 0) eqn:Hlr; [reflexivity |].
  rewrite Hlr_new. cbn [mbind outcome_bind].
  destruct (nlog_steps flags =? 0) eqn:Hlog; [reflexivity |].
  cbn [mbind outcome_bind].
  destruct Hzero as [Hzero | [Hzero | [Hmain Hzero]]].
  - rewrite Hzero in Hlr. discriminate Hlr.
  - rewrite Hzero in Hlog. discriminate Hlog.
  - rewrite Hmain, Hzero. reflexivity.
Qed.

Lemma saved_steps_app (a b : list event) :
  saved_steps (a ++ b) = saved_steps a ++ saved_steps b.
Proof. unfold saved_steps. apply flat_map_app. Qed.

Lemma saved_steps_trace (steps : list Z) :
  saved_steps (flat_map (step_events flags) steps)
  = List.filter (fun s => is_main flags && (s mod nsave_steps flags =? 0))
                steps.
Proof.
  induction steps as [|s steps IH]; [reflexivity |].
  cbn [flat_map List.filter]. rewrite saved_steps_app, IH.
  unfold step_events. rewrite !saved_steps_app.
  destruct (s mod nlog_steps flags =? 0),
    (is_main flags && (s mod nsave_steps flags =? 0)); reflexivity.
Qed.

(** X27: on the main process the checkpoints of a run are saved at the
    steps of the run that [nsave_steps] divides, in increasing order, and
    at no other step. *)
Theorem checkpoints_at_multiples (dl : list B) (fuel : nat) (s : Z) :
  intervals_set flags ->
  is_main flags = true ->
  dl <> [] ->
  (Z.to_nat (N - s) < fuel)%nat ->
  exists st,
    train_loop run_batch update_lr fuel flags dl {| step := s; events := [] |}
    = Some (Return st)
    /\ saved_steps (events st)
       = List.filter (fun n => n mod nsave_steps flags =? 0)
                     (step_range s (Z.max s N)).
Proof.
  intros Hset Hmain Hdl Hfuel. eexists. split.
  - apply train_loop_events; assumption.
  - cbn [events app]. rewrite saved_steps_app, saved_steps_trace.
    rewrite Hmain. cbn [andb saved_steps flat_map]. apply app_nil_r.
Qed.





End LoopProps.

Lemma example_intervals_set : intervals_set example_loop_flags.
Proof. repeat split; discriminate. Qed.

Lemma train_loop_reaches_last_step_witness :
  TrainDriver.train_loop run_any_batch update_any_lr 6 example_loop_flags [tt; tt]
    {| TrainDriver.step := 0; TrainDriver.events := [] |}
  = Some (TrainDriver.Return
            {| TrainDriver.step := 5;
               TrainDriver.events :=
                 [TrainDriver.OptimizerStep 0; TrainDriver.LogLoss 0;
                  TrainDriver.SaveCheckpoint 0;
                  TrainDriver.OptimizerStep 1;
                  TrainDriver.OptimizerStep 2; TrainDriver.SaveCheckpoint 2;
                  TrainDriver.OptimizerStep 3; TrainDriver.LogLoss 3;
                  TrainDriver.OptimizerStep 4; TrainDriver.SaveCheckpoint 4;
                  TrainDriver.OptimizerStep 5;
                  TrainDriver.SaveLossPlot] |})
  /\ length (step_range 0 5) = 6%nat.
Proof.
  assert ([tt; tt] <> []) as Hdl by discriminate.
  assert (Z.to_nat (5 - 0) < 6)%nat as Hfuel by lia.
  exact (train_loop_reaches_last_step run_any_batch update_any_lr example_loop_flags
           (fun _ _ => eq_refl) (fun _ => eq_refl) [tt; tt] 6 0 [] example_intervals_set
           Hdl Hfuel).
Defined.

Lemma train_loop_zero_interval_witness :
  TrainDriver.train_loop run_any_batch update_any_lr 1
    {| TrainDriver.ntraining_steps := 5;
       TrainDriver.nsave_steps := 2;
       TrainDriver.nlog_steps := 0;
       TrainDriver.lr_decay_steps := 10;
       TrainDriver.is_main := true |}
    [tt] {| TrainDriver.step := 0; TrainDriver.events := [] |}
  = Some (TrainDriver.Throw TrainDriver.ZeroDivisionError).
Proof.
  apply (train_loop_zero_interval run_any_batch update_any_lr).
  - reflexivity.
  - reflexivity.
  - right. left. reflexivity.
Defined.

Lemma checkpoints_at_multiples_witness :
  exists st,
    TrainDriver.train_loop run_any_batch update_any_lr 6 example_loop_flags [tt; tt]
      {| TrainDriver.step := 0; TrainDriver.events := [] |}
    = Some (TrainDriver.Return st)
    /\ saved_steps (TrainDriver.events st) = [0; 2; 4].
Proof.
  assert ([tt; tt] <> []) as Hdl by discriminate.
  assert (Z.to_nat (5 - 0) < 6)%nat as Hfuel by lia.
  exact (checkpoints_at_multiples run_any_batch update_any_lr example_loop_flags
           (fun _ _ => eq_refl) (fun _ => eq_refl) [tt; tt] 6 0 example_intervals_set
           eq_refl Hdl Hfuel).
Defined.

